(** * Campus Carpool: fare engine, ride search, join requests, ratings, approvals

    A shallow embedding of the business logic of the carpool repository:

    - [shadcn-ui/src/lib/costCalculator.ts]  (cost split, distance based cost)
    - [shadcn-ui/src/pages/SearchRides.tsx]  (search filter, join request)
    - [shadcn-ui/src/components/rides/SearchFilters.tsx]  (the search form)
    - [shadcn-ui/src/lib/storage.ts]         (local-storage tables, rating mean)
    - [supabase-functions.sql]               (approve_ride_request, the tables
                                              and the trigger update_user_rating)

    JavaScript numbers are modelled by [JSNumber.number]: exact rationals
    extended with the IEEE special values that the arithmetic of the source
    can produce (a division by zero gives an infinity or NaN).  Binary
    rounding of finite results and the sign of zero are not modelled.
    PostgreSQL [DECIMAL] values are exact rationals, [INTEGER]s are [Z],
    nullable columns are options and comparisons on them are three-valued. *)

From Stdlib Require Import ZArith QArith Qround Qabs List String Ascii Bool Lia Lqa.
From Stdlib Require Import Permutation Sorted.
Import ListNotations.
Open Scope Q_scope.

(* ================================================================== *)
(** ** JavaScript numbers *)

Module JSNumber.

Inductive number : Type :=
| Num (q : Q)
| PosInfinity
| NegInfinity
| NaN.

Definition of_nat (n : nat) : number := Num (inject_Z (Z.of_nat n)).

(** Sign of a rational, as a [comparison] with zero. *)
Definition sgn (q : Q) : comparison := (Qnum q ?= 0)%Z.

(** [x + y] *)
Definition add (x y : number) : number :=
  match x, y with
  | NaN, _ | _, NaN => NaN
  | Num a, Num b => Num (a + b)
  | PosInfinity, NegInfinity | NegInfinity, PosInfinity => NaN
  | PosInfinity, _ | _, PosInfinity => PosInfinity
  | NegInfinity, _ | _, NegInfinity => NegInfinity
  end.

(** [-x] *)
Definition neg (x : number) : number :=
  match x with
  | Num a => Num (- a)
  | PosInfinity => NegInfinity
  | NegInfinity => PosInfinity
  | NaN => NaN
  end.

(** [x - y] *)
Definition sub (x y : number) : number := add x (neg y).

(** An infinity of the sign given by [c]; NaN for a zero factor. *)
Definition signed_inf (c : comparison) : number :=
  match c with
  | Gt => PosInfinity
  | Lt => NegInfinity
  | Eq => NaN
  end.

Definition flip (c : comparison) : comparison := CompOpp c.

(** [x * y] *)
Definition mul (x y : number) : number :=
  match x, y with
  | NaN, _ | _, NaN => NaN
  | Num a, Num b => Num (a * b)
  | PosInfinity, Num b => signed_inf (sgn b)
  | NegInfinity, Num b => signed_inf (flip (sgn b))
  | Num a, PosInfinity => signed_inf (sgn a)
  | Num a, NegInfinity => signed_inf (flip (sgn a))
  | PosInfinity, PosInfinity | NegInfinity, NegInfinity => PosInfinity
  | PosInfinity, NegInfinity | NegInfinity, PosInfinity => NegInfinity
  end.

(** [x / y].  A finite dividend over zero is an infinity of the dividend's
    sign (the zero of the model is the positive one) and [0 / 0] is NaN. *)
Definition div (x y : number) : number :=
  match x, y with
  | NaN, _ | _, NaN => NaN
  | Num a, Num b =>
      match sgn b with
      | Eq => signed_inf (sgn a)
      | _ => Num (a / b)
      end
  | Num _, PosInfinity | Num _, NegInfinity => Num 0
  | PosInfinity, Num b =>
      match sgn b with Lt => NegInfinity | _ => PosInfinity end
  | NegInfinity, Num b =>
      match sgn b with Lt => PosInfinity | _ => NegInfinity end
  | _, _ => NaN
  end.

(** [Math.round]: the nearest integer, a tie going towards +Infinity. *)
Definition Math_round (x : number) : number :=
  match x with
  | Num a => Num (inject_Z (Qfloor (a + (1 # 2))))
  | _ => x
  end.

(** [x === y] on numbers. *)
Definition strict_eq (x y : number) : bool :=
  match x, y with
  | Num a, Num b => Qeq_bool a b
  | PosInfinity, PosInfinity | NegInfinity, NegInfinity => true
  | _, _ => false
  end.

(** [x <= y] *)
Definition le (x y : number) : bool :=
  match x, y with
  | NaN, _ | _, NaN => false
  | Num a, Num b => Qle_bool a b
  | NegInfinity, _ | _, PosInfinity => true
  | _, _ => false
  end.

(** [x >= y] *)
Definition ge (x y : number) : bool := le y x.

(** [x < y] *)
Definition lt (x y : number) : bool :=
  match x, y with
  | NaN, _ | _, NaN => false
  | Num a, Num b => negb (Qle_bool b a)
  | PosInfinity, _ | _, NegInfinity => false
  | _, _ => true
  end.

(** Truthiness of a number in a condition: zero and NaN are falsy. *)
Definition truthy (x : number) : bool :=
  match x with
  | Num a => negb (Qeq_bool a 0)
  | NaN => false
  | _ => true
  end.


End JSNumber.

Import JSNumber.

(** A parameter with a default value: [undefined] selects the default. *)
Definition dflt {A : Type} (x : option A) (d : A) : A :=
  match x with
  | Some v => v
  | None => d
  end.

(** How a JavaScript call completes: it returns a value or throws. *)
Inductive completion (A : Type) : Type :=
| Normal (v : A)
| Throw (err : string).
Arguments Normal {A} v.
Arguments Throw {A} err.


(* ================================================================== *)
(** ** costCalculator.ts *)

Module CostCalculator.

Record CostCalculationParams : Type := mkParams {
  totalCost : number;
  driverId : string;
  passengerIds : list string;
  includeDriverInSplit : option bool
}.

Record PassengerShare : Type := mkShare {
  userId : string;
  amount : number
}.

Record CostBreakdown : Type := mkBreakdown {
  cb_totalCost : number;
  costPerSeat : number;
  numberOfPassengers : nat;
  driverShare : number;
  passengerShares : list PassengerShare
}.

Definition calculateRideCost (params : CostCalculationParams)
  : completion CostBreakdown :=
  let totalCost := totalCost params in
  let passengerIds := passengerIds params in
  let includeDriverInSplit := dflt (includeDriverInSplit params) false in
  let numberOfPassengers := List.length passengerIds in
  if Nat.eqb numberOfPassengers 0 then
    Normal {| cb_totalCost := totalCost;
              costPerSeat := totalCost;
              numberOfPassengers := 0;
              driverShare := totalCost;
              passengerShares := [] |}
  else
    let '(costPerSeat, driverShare) :=
      if includeDriverInSplit then
        let totalParticipants := (numberOfPassengers + 1)%nat in
        let costPerSeat := div totalCost (of_nat totalParticipants) in
        (costPerSeat, costPerSeat)
      else
        (div totalCost (of_nat numberOfPassengers), Num 0) in
    let passengerShares :=
      map (fun userId =>
             {| userId := userId;
                amount := div (Math_round (mul costPerSeat (Num 100))) (Num 100) |})
          passengerIds in
    Normal {| cb_totalCost := totalCost;
              costPerSeat := div (Math_round (mul costPerSeat (Num 100))) (Num 100);
              numberOfPassengers := numberOfPassengers;
              driverShare := div (Math_round (mul driverShare (Num 100))) (Num 100);
              passengerShares := passengerShares |}.

Definition calculateDistanceBasedCost
    (distanceKm : number)
    (fuelEfficiencyKmPerLiter fuelPricePerLiter additionalCostsPerKm : option number)
  : completion number :=
  let fuelEfficiencyKmPerLiter := dflt fuelEfficiencyKmPerLiter (Num 12) in
  let fuelPricePerLiter := dflt fuelPricePerLiter (Num (3 # 2)) in
  let additionalCostsPerKm := dflt additionalCostsPerKm (Num (1 # 10)) in
  let fuelCost := mul (div distanceKm fuelEfficiencyKmPerLiter) fuelPricePerLiter in
  let additionalCosts := mul distanceKm additionalCostsPerKm in
  Normal (div (Math_round (mul (add fuelCost additionalCosts) (Num 100))) (Num 100)).


Definition calculateTimeBasedCost
    (durationMinutes : number) (costPerHour : option number)
  : completion number :=
  let costPerHour := dflt costPerHour (Num 10) in
  let hours := div durationMinutes (Num 60) in
  Normal (div (Math_round (mul (mul hours costPerHour) (Num 100))) (Num 100)).

(** The [options] argument of [calculateSuggestedPrice]. *)
Record PriceOptions : Type := mkOptions {
  fuelEfficiency : option number;
  fuelPrice : option number;
  wearAndTearRate : option number;
  timeValue : option number;
  profitMargin : option number
}.

(** [options = {}] *)
Definition noOptions : PriceOptions :=
  {| fuelEfficiency := None; fuelPrice := None; wearAndTearRate := None;
     timeValue := None; profitMargin := None |}.

(** A call inside a function body: a throw of the callee ends the caller. *)
Definition call {A B : Type} (c : completion A) (k : A -> completion B) : completion B :=
  match c with
  | Normal v => k v
  | Throw err => Throw err
  end.

Definition calculateSuggestedPrice
    (distanceKm durationMinutes numberOfSeats : number) (options : option PriceOptions)
  : completion number :=
  let options := dflt options noOptions in
  let fuelEfficiency := dflt (fuelEfficiency options) (Num 12) in
  let fuelPrice := dflt (fuelPrice options) (Num (3 # 2)) in
  let wearAndTearRate := dflt (wearAndTearRate options) (Num (15 # 100)) in
  let timeValue := dflt (timeValue options) (Num 8) in
  let profitMargin := dflt (profitMargin options) (Num (1 # 10)) in
  (* Calculate base costs *)
  call (calculateDistanceBasedCost distanceKm (Some fuelEfficiency) (Some fuelPrice)
          (Some wearAndTearRate)) (fun fuelCost =>
  call (calculateTimeBasedCost durationMinutes (Some timeValue)) (fun timeCost =>
  (* Total cost including profit margin *)
  let totalCost := mul (add fuelCost timeCost) (add (Num 1) profitMargin) in
  (* Cost per seat *)
  let costPerSeat := div totalCost numberOfSeats in
  Normal (div (Math_round (mul costPerSeat (Num 100))) (Num 100)))).



End CostCalculator.

(* ================================================================== *)
(** ** types/index.ts

    Strings are ASCII strings; a [Date] is its time value in milliseconds.
    The embedded [driver], [passenger], [rater] and [ratedUser] objects and
    the coordinates of a location are read by none of the functions below
    and are left out of the records. *)

Definition Date : Type := Z.

Module User.
Record t : Type := mk {
  id : string;
  firstName : string;
  lastName : string;
  email : string
}.
End User.

Module Location.
Record t : Type := mk {
  address : string;
  city : string;
  state : string
}.
End Location.

Inductive Gender : Type := male | female | any.

Definition Gender_eqb (a b : Gender) : bool :=
  match a, b with
  | male, male | female, female | any, any => true
  | _, _ => false
  end.

Module RidePreferences.
Record t : Type := mk {
  smokingAllowed : bool;
  petsAllowed : bool;
  musicAllowed : bool;
  genderPreference : Gender
}.
End RidePreferences.

Inductive RideType : Type := offer | request.
Inductive RideStatus : Type := active | completed | cancelled.
Inductive RequestStatus : Type := pending | approved | rejected.

Definition RideType_eqb (a b : RideType) : bool :=
  match a, b with
  | offer, offer | request, request => true
  | _, _ => false
  end.

Definition RideStatus_eqb (a b : RideStatus) : bool :=
  match a, b with
  | active, active | completed, completed | cancelled, cancelled => true
  | _, _ => false
  end.

Definition RequestStatus_eqb (a b : RequestStatus) : bool :=
  match a, b with
  | pending, pending | approved, approved | rejected, rejected => true
  | _, _ => false
  end.

Module Ride.
Record t : Type := mk {
  id : string;
  driverId : string;
  type : RideType;
  fromLocation : Location.t;
  toLocation : Location.t;
  departureTime : Date;
  availableSeats : number;
  costPerSeat : number;
  description : string;
  status : RideStatus;
  preferences : RidePreferences.t;
  passengers : list string
}.
End Ride.

Module RideRequest.
Record t : Type := mk {
  id : string;
  passengerId : string;
  rideId : string;
  ride : Ride.t;
  status : RequestStatus;
  message : string;
  requestedSeats : number;
  createdAt : Date;
  updatedAt : Date
}.
End RideRequest.

Module Rating.
Record t : Type := mk {
  id : string;
  raterId : string;
  ratedUserId : string;
  rideId : string;
  score : number
}.
End Rating.

Inductive NotificationType : Type :=
  ride_request | ride_approved | ride_cancelled | message_notification | rating_notification.

Module Notification.
Record t : Type := mk {
  id : string;
  userId : string;
  type : NotificationType;
  title : string;
  message : string;
  data : list (string * string);
  isRead : bool;
  createdAt : Date
}.
End Notification.

Module SearchCriteria.
Record t : Type := mk {
  fromCity : option string;
  toCity : option string;
  departureDate : option Date;
  maxCostPerSeat : option number;
  availableSeats : option number;
  genderPreference : option Gender
}.
End SearchCriteria.

(* ================================================================== *)
(** ** JavaScript strings and arrays *)

Module JSString.

Definition lower_ascii (c : ascii) : ascii :=
  let n := nat_of_ascii c in
  if andb (Nat.leb 65 n) (Nat.leb n 90) then ascii_of_nat (n + 32) else c.

Fixpoint toLowerCase (s : string) : string :=
  match s with
  | EmptyString => EmptyString
  | String c s' => String (lower_ascii c) (toLowerCase s')
  end.

(** [s.includes(sub)] *)
Fixpoint includes (s sub : string) : bool :=
  if String.prefix sub s then true
  else match s with
       | EmptyString => false
       | String _ s' => includes s' sub
       end.

(** A string in a condition: the empty string is falsy. *)
Definition truthy (s : string) : bool :=
  negb (String.eqb s EmptyString).


(** The white space and line terminators among the ASCII characters: tab,
    line feed, vertical tab, form feed, carriage return and space. *)
Definition isWhiteSpace (c : ascii) : bool :=
  let n := nat_of_ascii c in
  (Nat.leb 9 n && Nat.leb n 13) || Nat.eqb n 32.

Fixpoint trimStart (s : string) : string :=
  match s with
  | EmptyString => EmptyString
  | String c s' => if isWhiteSpace c then trimStart s' else s
  end.

Fixpoint trimEnd (s : string) : string :=
  match s with
  | EmptyString => EmptyString
  | String c s' =>
      match trimEnd s' with
      | EmptyString => if isWhiteSpace c then EmptyString else String c EmptyString
      | rest => String c rest
      end
  end.

(** [s.trim()] *)
Definition trim (s : string) : string := trimEnd (trimStart s).

End JSString.

(** [arr.includes(x)] on an array of strings. *)
Definition array_includes (arr : list string) (x : string) : bool :=
  existsb (String.eqb x) arr.

(** [arr.some(p)] *)
Definition some {A : Type} (p : A -> bool) (arr : list A) : bool := existsb p arr.

(** [arr.find(p)] *)
Definition find {A : Type} (p : A -> bool) (arr : list A) : option A := List.find p arr.

(** [arr.findIndex(p)], with [None] for -1. *)
Fixpoint findIndex {A : Type} (p : A -> bool) (arr : list A) : option nat :=
  match arr with
  | [] => None
  | x :: arr' => if p x then Some 0%nat else option_map S (findIndex p arr')
  end.

(** [arr[index] = v] for an index within the array (the only use made of
    it: the index comes from [findIndex]). *)
Fixpoint assign {A : Type} (arr : list A) (index : nat) (v : A) : list A :=
  match arr, index with
  | [], _ => []
  | _ :: arr', O => v :: arr'
  | x :: arr', S i => x :: assign arr' i v
  end.

(** [arr.sort(compare)]: the sort is stable, [a] comes before [b] when
    [compare(a, b)] is negative, and elements that compare as 0 keep
    their order. *)
Fixpoint sort_insert {A : Type} (compare : A -> A -> Z) (a : A) (sorted : list A)
  : list A :=
  match sorted with
  | [] => [a]
  | b :: sorted' =>
      if (compare a b <=? 0)%Z then a :: sorted
      else b :: sort_insert compare a sorted'
  end.

Definition sort {A : Type} (compare : A -> A -> Z) (arr : list A) : list A :=
  fold_right (sort_insert compare) [] arr.

(** A [Partial<RideRequest>]: the fields present in an update. *)
Module PartialRideRequest.
Record t : Type := mk {
  id : option string;
  passengerId : option string;
  rideId : option string;
  ride : option Ride.t;
  status : option RequestStatus;
  message : option string;
  requestedSeats : option number;
  createdAt : option Date;
  updatedAt : option Date
}.
End PartialRideRequest.

(* ================================================================== *)
(** ** storage.ts

    The browser's local storage, one field per key of [STORAGE_KEYS] that
    the modelled pages use.  Reads and writes are taken to succeed. *)

Module Storage.

Record LocalStorage : Type := mk {
  USER : option User.t;
  RIDES : list Ride.t;
  RATINGS : list Rating.t;
  NOTIFICATIONS : list Notification.t;
  RIDE_REQUESTS : list RideRequest.t
}.

Module userStorage.
Definition getUser (ls : LocalStorage) : option User.t := USER ls.
End userStorage.

Module ridesStorage.
Definition getRides (ls : LocalStorage) : list Ride.t := RIDES ls.

Definition setRides (rides : list Ride.t) (ls : LocalStorage) : LocalStorage :=
  {| USER := USER ls; RIDES := rides; RATINGS := RATINGS ls;
     NOTIFICATIONS := NOTIFICATIONS ls; RIDE_REQUESTS := RIDE_REQUESTS ls |}.

Definition addRide (ride : Ride.t) (ls : LocalStorage) : LocalStorage :=
  let rides := getRides ls in
  setRides (rides ++ [ride]) ls.

Definition removeRide (rideId : string) (ls : LocalStorage) : LocalStorage :=
  let rides := getRides ls in
  let filtered := filter (fun r => negb (String.eqb (Ride.id r) rideId)) rides in
  setRides filtered ls.

Definition getUserRides (userId : string) (ls : LocalStorage) : list Ride.t :=
  let rides := getRides ls in
  filter (fun r => String.eqb (Ride.driverId r) userId ||
                   array_includes (Ride.passengers r) userId)
         rides.
End ridesStorage.

Module rideRequestsStorage.
Definition getRequests (ls : LocalStorage) : list RideRequest.t := RIDE_REQUESTS ls.

Definition setRequests (requests : list RideRequest.t) (ls : LocalStorage) : LocalStorage :=
  {| USER := USER ls; RIDES := RIDES ls; RATINGS := RATINGS ls;
     NOTIFICATIONS := NOTIFICATIONS ls; RIDE_REQUESTS := requests |}.

Definition addRequest (request : RideRequest.t) (ls : LocalStorage) : LocalStorage :=
  let requests := getRequests ls in
  setRequests (requests ++ [request]) ls.

Definition getUserRequests (userId : string) (ls : LocalStorage) : list RideRequest.t :=
  let requests := getRequests ls in
  filter (fun r => String.eqb (RideRequest.passengerId r) userId) requests.

(** [{ ...request, ...updates, updatedAt: new Date() }], with the value
    of [new Date()] as an argument. *)
Definition spread (request : RideRequest.t) (updates : PartialRideRequest.t)
    (now : Date) : RideRequest.t :=
  {| RideRequest.id := dflt (PartialRideRequest.id updates) (RideRequest.id request);
     RideRequest.passengerId :=
       dflt (PartialRideRequest.passengerId updates) (RideRequest.passengerId request);
     RideRequest.rideId :=
       dflt (PartialRideRequest.rideId updates) (RideRequest.rideId request);
     RideRequest.ride := dflt (PartialRideRequest.ride updates) (RideRequest.ride request);
     RideRequest.status :=
       dflt (PartialRideRequest.status updates) (RideRequest.status request);
     RideRequest.message :=
       dflt (PartialRideRequest.message updates) (RideRequest.message request);
     RideRequest.requestedSeats :=
       dflt (PartialRideRequest.requestedSeats updates)
            (RideRequest.requestedSeats request);
     RideRequest.createdAt :=
       dflt (PartialRideRequest.createdAt updates) (RideRequest.createdAt request);
     RideRequest.updatedAt := now |}.

Definition updateRequest (now : Date) (requestId : string)
    (updates : PartialRideRequest.t) (ls : LocalStorage) : LocalStorage :=
  let requests := getRequests ls in
  let index := findIndex (fun r => String.eqb (RideRequest.id r) requestId) requests in
  match index with
  | Some index =>
      (* [requests[index]]: the index found is within the array *)
      match nth_error requests index with
      | Some current =>
          setRequests (assign requests index (spread current updates now)) ls
      | None => ls
      end
  | None => ls
  end.

Definition getRideRequests (rideId : string) (ls : LocalStorage) : list RideRequest.t :=
  let requests := getRequests ls in
  filter (fun r => String.eqb (RideRequest.rideId r) rideId) requests.
End rideRequestsStorage.

Module ratingsStorage.
Definition getRatings (ls : LocalStorage) : list Rating.t := RATINGS ls.

Definition setRatings (ratings : list Rating.t) (ls : LocalStorage) : LocalStorage :=
  {| USER := USER ls; RIDES := RIDES ls; RATINGS := ratings;
     NOTIFICATIONS := NOTIFICATIONS ls; RIDE_REQUESTS := RIDE_REQUESTS ls |}.

Definition addRating (rating : Rating.t) (ls : LocalStorage) : LocalStorage :=
  let ratings := getRatings ls in
  setRatings (ratings ++ [rating]) ls.

Definition getUserRatings (userId : string) (ls : LocalStorage) : list Rating.t :=
  let ratings := getRatings ls in
  filter (fun r => String.eqb (Rating.ratedUserId r) userId) ratings.

Definition calculateUserRating (userId : string) (ls : LocalStorage) : number :=
  let userRatings := getUserRatings userId ls in
  if Nat.eqb (List.length userRatings) 0 then Num 0
  else
    let totalScore :=
      fold_left (fun sum rating => add sum (Rating.score rating)) userRatings (Num 0) in
    div (Math_round (mul (div totalScore (of_nat (List.length userRatings))) (Num 10)))
        (Num 10).
End ratingsStorage.

Module notificationsStorage.
Definition getNotifications (ls : LocalStorage) : list Notification.t := NOTIFICATIONS ls.

Definition setNotifications (notifications : list Notification.t) (ls : LocalStorage)
  : LocalStorage :=
  {| USER := USER ls; RIDES := RIDES ls; RATINGS := RATINGS ls;
     NOTIFICATIONS := notifications; RIDE_REQUESTS := RIDE_REQUESTS ls |}.

Definition addNotification (notification : Notification.t) (ls : LocalStorage)
  : LocalStorage :=
  let notifications := getNotifications ls in
  setNotifications (notification :: notifications) ls.

Definition getUserNotifications (userId : string) (ls : LocalStorage)
  : list Notification.t :=
  let notifications := getNotifications ls in
  sort (fun a b => (Notification.createdAt b - Notification.createdAt a)%Z)
       (filter (fun n => String.eqb (Notification.userId n) userId) notifications).

Definition markAsRead (notificationId : string) (ls : LocalStorage) : LocalStorage :=
  let notifications := getNotifications ls in
  let updated :=
    map (fun n =>
           if String.eqb (Notification.id n) notificationId then
             {| Notification.id := Notification.id n;
                Notification.userId := Notification.userId n;
                Notification.type := Notification.type n;
                Notification.title := Notification.title n;
                Notification.message := Notification.message n;
                Notification.data := Notification.data n;
                Notification.isRead := true;
                Notification.createdAt := Notification.createdAt n |}
           else n)
        notifications in
  setNotifications updated ls.

Definition getUnreadCount (userId : string) (ls : LocalStorage) : nat :=
  let userNotifications := getUserNotifications userId ls in
  List.length (filter (fun n => negb (Notification.isRead n)) userNotifications).
End notificationsStorage.


(** [initializeDemoData], with the value of [Date.now()] as an argument. *)
Definition initializeDemoData (now : Date) (ls : LocalStorage) : LocalStorage :=
  (* Only initialize if no data exists *)
  if Nat.eqb (List.length (ridesStorage.getRides ls)) 0 then
    let demoRides :=
      [ {| Ride.id := "demo-ride-1";
           Ride.driverId := "demo-user-1";
           Ride.type := offer;
           Ride.fromLocation :=
             {| Location.address := "University Campus";
                Location.city := "San Francisco"; Location.state := "CA" |};
           Ride.toLocation :=
             {| Location.address := "Downtown Area";
                Location.city := "San Francisco"; Location.state := "CA" |};
           Ride.departureTime := (now + 2 * 60 * 60 * 1000)%Z;
           Ride.availableSeats := Num 3;
           Ride.costPerSeat := Num 15;
           Ride.description :=
             "Heading downtown after classes, can drop off at BART station";
           Ride.status := active;
           Ride.preferences :=
             {| RidePreferences.smokingAllowed := false;
                RidePreferences.petsAllowed := false;
                RidePreferences.musicAllowed := true;
                RidePreferences.genderPreference := any |};
           Ride.passengers := [] |} ] in
    ridesStorage.setRides demoRides ls
  else ls.

End Storage.

(* ================================================================== *)
(** ** pages/SearchRides.tsx

    The page keeps its state in React hooks; the handlers are functions
    from the state of the page (and the local storage) to the next one.
    [toDateString] is the host's local calendar-day formatting of a date.
    The values that a handler draws from [generateId()] and [new Date()]
    are passed to it in a [Fresh] record. *)

Module SearchRides.

Import Storage.

Record Component : Type := mk {
  rides : list Ride.t;
  filteredRides : list Ride.t;
  loading : bool;
  user : option User.t;
  message : string
}.

Definition setMessage (m : string) (c : Component) : Component :=
  {| rides := rides c; filteredRides := filteredRides c; loading := loading c;
     user := user c; message := m |}.

Definition setFilteredRides (l : list Ride.t) (c : Component) : Component :=
  {| rides := rides c; filteredRides := l; loading := loading c;
     user := user c; message := message c |}.

Definition getCurrentUser (ls : LocalStorage) : option User.t :=
  userStorage.getUser ls.

(** The effect run when the page is mounted. *)
Definition useEffect (ls : LocalStorage) (c : Component) : Component :=
  let currentUser := getCurrentUser ls in
  let allRides := ridesStorage.getRides ls in
  let activeRides :=
    filter (fun ride =>
              RideStatus_eqb (Ride.status ride) active &&
              RideType_eqb (Ride.type ride) offer &&
              match currentUser with
              | None => false
              | Some currentUser =>
                  negb (String.eqb (Ride.driverId ride) (User.id currentUser)) &&
                  negb (array_includes (Ride.passengers ride) (User.id currentUser))
              end)
           allRides in
  {| rides := activeRides; filteredRides := activeRides; loading := false;
     user := currentUser; message := message c |}.

Section Search.

Variable toDateString : Date -> string.

Definition handleSearch (criteria : SearchCriteria.t) (c : Component) : Component :=
  let filtered := rides c in
  (* Filter by from city *)
  let filtered :=
    match SearchCriteria.fromCity criteria with
    | Some fromCity =>
        if JSString.truthy fromCity then
          filter (fun ride =>
                    JSString.includes
                      (JSString.toLowerCase (Location.city (Ride.fromLocation ride)))
                      (JSString.toLowerCase fromCity) ||
                    JSString.includes
                      (JSString.toLowerCase (Location.address (Ride.fromLocation ride)))
                      (JSString.toLowerCase fromCity))
                 filtered
        else filtered
    | None => filtered
    end in
  (* Filter by to city *)
  let filtered :=
    match SearchCriteria.toCity criteria with
    | Some toCity =>
        if JSString.truthy toCity then
          filter (fun ride =>
                    JSString.includes
                      (JSString.toLowerCase (Location.city (Ride.toLocation ride)))
                      (JSString.toLowerCase toCity) ||
                    JSString.includes
                      (JSString.toLowerCase (Location.address (Ride.toLocation ride)))
                      (JSString.toLowerCase toCity))
                 filtered
        else filtered
    | None => filtered
    end in
  (* Filter by departure date *)
  let filtered :=
    match SearchCriteria.departureDate criteria with
    | Some departureDate =>
        let searchDate := toDateString departureDate in
        filter (fun ride =>
                  String.eqb (toDateString (Ride.departureTime ride)) searchDate)
               filtered
    | None => filtered
    end in
  (* Filter by max cost *)
  let filtered :=
    match SearchCriteria.maxCostPerSeat criteria with
    | Some maxCostPerSeat =>
        if JSNumber.truthy maxCostPerSeat then
          filter (fun ride => le (Ride.costPerSeat ride) maxCostPerSeat) filtered
        else filtered
    | None => filtered
    end in
  (* Filter by available seats *)
  let filtered :=
    match SearchCriteria.availableSeats criteria with
    | Some availableSeats =>
        if JSNumber.truthy availableSeats then
          filter (fun ride => ge (Ride.availableSeats ride) availableSeats) filtered
        else filtered
    | None => filtered
    end in
  (* Filter by gender preference *)
  let filtered :=
    match SearchCriteria.genderPreference criteria with
    | Some genderPreference =>
        filter (fun ride =>
                  Gender_eqb (RidePreferences.genderPreference (Ride.preferences ride)) any ||
                  Gender_eqb (RidePreferences.genderPreference (Ride.preferences ride))
                             genderPreference)
               filtered
    | None => filtered
    end in
  setFilteredRides filtered c.

End Search.

Definition handleClearSearch (c : Component) : Component :=
  setFilteredRides (rides c) c.

Record Fresh : Type := mkFresh {
  requestId : string;
  requestCreatedAt : Date;
  requestUpdatedAt : Date;
  notificationId : string;
  notificationCreatedAt : Date
}.

Definition handleJoinRide (fresh : Fresh) (rideId : string)
    (w : Component * LocalStorage) : Component * LocalStorage :=
  let (c, ls) := w in
  match user c with
  | None => w
  | Some user =>
      let ride := find (fun r => String.eqb (Ride.id r) rideId) (rides c) in
      match ride with
      | None => (setMessage "Ride not found"%string c, ls)
      | Some ride =>
          if le (Ride.availableSeats ride) (Num 0) then
            (setMessage "No seats available"%string c, ls)
          else
            (* Check if user already requested this ride *)
            let existingRequests :=
              rideRequestsStorage.getUserRequests (User.id user) ls in
            let hasRequested :=
              some (fun req =>
                      String.eqb (RideRequest.rideId req) rideId &&
                      RequestStatus_eqb (RideRequest.status req) pending)
                   existingRequests in
            if hasRequested then
              (setMessage "You have already requested to join this ride"%string c, ls)
            else
              (* Create ride request *)
              let request :=
                {| RideRequest.id := requestId fresh;
                   RideRequest.passengerId := User.id user;
                   RideRequest.rideId := rideId;
                   RideRequest.ride := ride;
                   RideRequest.status := pending;
                   RideRequest.message :=
                     (User.firstName user ++ " " ++ User.lastName user ++
                      " would like to join your ride")%string;
                   RideRequest.requestedSeats := Num 1;
                   RideRequest.createdAt := requestCreatedAt fresh;
                   RideRequest.updatedAt := requestUpdatedAt fresh |} in
              let ls := rideRequestsStorage.addRequest request ls in
              (* Create notification for driver *)
              let notification :=
                {| Notification.id := notificationId fresh;
                   Notification.userId := Ride.driverId ride;
                   Notification.type := ride_request;
                   Notification.title := "New Ride Request"%string;
                   Notification.message :=
                     (User.firstName user ++ " " ++ User.lastName user ++
                      " wants to join your ride")%string;
                   Notification.data :=
                     [("rideId"%string, rideId); ("requestId"%string, RideRequest.id request)];
                   Notification.isRead := false;
                   Notification.createdAt := notificationCreatedAt fresh |} in
              let ls := notificationsStorage.addNotification notification ls in
              let c := setMessage "Ride request sent! The driver will be notified."%string c in
              (* Remove the ride from filtered results temporarily *)
              let c :=
                setFilteredRides
                  (filter (fun r => negb (String.eqb (Ride.id r) rideId))
                          (filteredRides c))
                  c in
              (c, ls)
      end
  end.

End SearchRides.

(* ================================================================== *)
(** ** components/rides/SearchFilters.tsx

    The form keeps the criteria being typed in its state; [handleSearch]
    builds from them the criteria that it hands to [onSearch]. *)

Module SearchFilters.

Definition noCriteria : SearchCriteria.t :=
  {| SearchCriteria.fromCity := None; SearchCriteria.toCity := None;
     SearchCriteria.departureDate := None; SearchCriteria.maxCostPerSeat := None;
     SearchCriteria.availableSeats := None;
     SearchCriteria.genderPreference := None |}.

Definition handleSearch {R : Type} (onSearch : SearchCriteria.t -> R)
    (criteria : SearchCriteria.t) : R :=
  let searchCriteria := noCriteria in
  let searchCriteria :=
    match SearchCriteria.fromCity criteria with
    | Some fromCity =>
        if JSString.truthy (JSString.trim fromCity) then
          {| SearchCriteria.fromCity := Some (JSString.trim fromCity);
             SearchCriteria.toCity := SearchCriteria.toCity searchCriteria;
             SearchCriteria.departureDate := SearchCriteria.departureDate searchCriteria;
             SearchCriteria.maxCostPerSeat := SearchCriteria.maxCostPerSeat searchCriteria;
             SearchCriteria.availableSeats := SearchCriteria.availableSeats searchCriteria;
             SearchCriteria.genderPreference :=
               SearchCriteria.genderPreference searchCriteria |}
        else searchCriteria
    | None => searchCriteria
    end in
  let searchCriteria :=
    match SearchCriteria.toCity criteria with
    | Some toCity =>
        if JSString.truthy (JSString.trim toCity) then
          {| SearchCriteria.fromCity := SearchCriteria.fromCity searchCriteria;
             SearchCriteria.toCity := Some (JSString.trim toCity);
             SearchCriteria.departureDate := SearchCriteria.departureDate searchCriteria;
             SearchCriteria.maxCostPerSeat := SearchCriteria.maxCostPerSeat searchCriteria;
             SearchCriteria.availableSeats := SearchCriteria.availableSeats searchCriteria;
             SearchCriteria.genderPreference :=
               SearchCriteria.genderPreference searchCriteria |}
        else searchCriteria
    | None => searchCriteria
    end in
  let searchCriteria :=
    match SearchCriteria.departureDate criteria with
    | Some departureDate =>
        {| SearchCriteria.fromCity := SearchCriteria.fromCity searchCriteria;
           SearchCriteria.toCity := SearchCriteria.toCity searchCriteria;
           SearchCriteria.departureDate := Some departureDate;
           SearchCriteria.maxCostPerSeat := SearchCriteria.maxCostPerSeat searchCriteria;
           SearchCriteria.availableSeats := SearchCriteria.availableSeats searchCriteria;
           SearchCriteria.genderPreference :=
             SearchCriteria.genderPreference searchCriteria |}
    | None => searchCriteria
    end in
  let searchCriteria :=
    match SearchCriteria.maxCostPerSeat criteria with
    | Some maxCostPerSeat =>
        if lt (Num 0) maxCostPerSeat then
          {| SearchCriteria.fromCity := SearchCriteria.fromCity searchCriteria;
             SearchCriteria.toCity := SearchCriteria.toCity searchCriteria;
             SearchCriteria.departureDate := SearchCriteria.departureDate searchCriteria;
             SearchCriteria.maxCostPerSeat := Some maxCostPerSeat;
             SearchCriteria.availableSeats := SearchCriteria.availableSeats searchCriteria;
             SearchCriteria.genderPreference :=
               SearchCriteria.genderPreference searchCriteria |}
        else searchCriteria
    | None => searchCriteria
    end in
  let searchCriteria :=
    match SearchCriteria.availableSeats criteria with
    | Some availableSeats =>
        if lt (Num 0) availableSeats then
          {| SearchCriteria.fromCity := SearchCriteria.fromCity searchCriteria;
             SearchCriteria.toCity := SearchCriteria.toCity searchCriteria;
             SearchCriteria.departureDate := SearchCriteria.departureDate searchCriteria;
             SearchCriteria.maxCostPerSeat := SearchCriteria.maxCostPerSeat searchCriteria;
             SearchCriteria.availableSeats := Some availableSeats;
             SearchCriteria.genderPreference :=
               SearchCriteria.genderPreference searchCriteria |}
        else searchCriteria
    | None => searchCriteria
    end in
  let searchCriteria :=
    match SearchCriteria.genderPreference criteria with
    | Some genderPreference =>
        if negb (Gender_eqb genderPreference any) then
          {| SearchCriteria.fromCity := SearchCriteria.fromCity searchCriteria;
             SearchCriteria.toCity := SearchCriteria.toCity searchCriteria;
             SearchCriteria.departureDate := SearchCriteria.departureDate searchCriteria;
             SearchCriteria.maxCostPerSeat := SearchCriteria.maxCostPerSeat searchCriteria;
             SearchCriteria.availableSeats := SearchCriteria.availableSeats searchCriteria;
             SearchCriteria.genderPreference := Some genderPreference |}
        else searchCriteria
    | None => searchCriteria
    end in
  onSearch searchCriteria.

End SearchFilters.

(* ================================================================== *)
(** ** supabase-functions.sql and the schema of its tables

    A table is the list of its rows.  A UUID is a natural number.  Columns
    filled from the clock and the surrogate key of [ride_passengers] are
    left out, as are the columns that no modelled statement reads.  A
    nullable column is an [option]; a condition is three-valued and a row
    or branch is taken only when it is true.  A statement that violates a
    constraint raises an error, which aborts the calling function and
    leaves the database as it was.  Row-level security and foreign keys
    are outside the model. *)

Module Supabase.

Definition uuid : Type := N.

Inductive sqlstate : Type :=
| unique_violation
| check_violation
| numeric_value_out_of_range.

Inductive sql_result (A : Type) : Type :=
| Ok (a : A)
| Raise (e : sqlstate).
Arguments Ok {A} a.
Arguments Raise {A} e.

Inductive rating_type : Type := driver | passenger.

Definition rating_type_eqb (a b : rating_type) : bool :=
  match a, b with
  | driver, driver | passenger, passenger => true
  | _, _ => false
  end.

Module Users.
Record row : Type := mk {
  id : uuid;
  rating : option Q;            (* DECIMAL(3,2) DEFAULT 0.0 *)
  total_ratings : option Z      (* INTEGER DEFAULT 0 *)
}.
End Users.

Module Rides.
Record row : Type := mk {
  id : uuid;
  driver_id : uuid;
  type : RideType;
  available_seats : Z;          (* INTEGER NOT NULL CHECK (available_seats > 0) *)
  status : option RideStatus    (* ride_status DEFAULT 'active' *)
}.
End Rides.

Module RidePassengers.
Record row : Type := mk {
  ride_id : uuid;
  passenger_id : uuid
}.
End RidePassengers.

Module RideRequests.
Record row : Type := mk {
  id : uuid;
  passenger_id : uuid;
  ride_id : uuid;
  status : option RequestStatus;  (* request_status DEFAULT 'pending' *)
  requested_seats : option Z      (* INTEGER DEFAULT 1 CHECK (requested_seats > 0) *)
}.
End RideRequests.

Module Ratings.
Record row : Type := mk {
  id : uuid;
  rater_id : uuid;
  rated_user_id : uuid;
  ride_id : uuid;
  score : Z;                    (* INTEGER NOT NULL CHECK (score >= 1 AND score <= 5) *)
  type : rating_type
}.
End Ratings.

Module Notifications.
Record row : Type := mk {
  id : uuid;
  user_id : uuid;
  type : NotificationType;
  title : string;
  message : string;
  data : list (string * uuid)
}.
End Notifications.

Record database : Type := mkdb {
  users : list Users.row;
  rides : list Rides.row;
  ride_passengers : list RidePassengers.row;
  ride_requests : list RideRequests.row;
  ratings : list Ratings.row;
  notifications : list Notifications.row
}.

(** *** Three-valued conditions and aggregates *)

(** A condition holds when it is true, not when it is false or NULL. *)
Definition holds (c : option bool) : bool :=
  match c with
  | Some true => true
  | _ => false
  end.

(** [a = v] for a nullable column [a] of an enumerated type. *)
Definition eq_enum {A : Type} (eqb : A -> A -> bool) (a : option A) (v : A) : option bool :=
  match a with
  | Some x => Some (eqb x v)
  | None => None
  end.

(** [a < b] on nullable integers. *)
Definition lt_int (a b : option Z) : option bool :=
  match a, b with
  | Some x, Some y => Some (x <? y)%Z
  | _, _ => None
  end.

Definition COUNT {A : Type} (rows : list A) : Z := Z.of_nat (List.length rows).

(** [AVG] over numeric values: NULL over no rows, else the sum over the
    count (taken exactly). *)
Definition AVG (values : list Q) : option Q :=
  match values with
  | [] => None
  | _ => Some (fold_right Qplus 0 values / inject_Z (COUNT values))
  end.

Definition COALESCE {A : Type} (a : option A) (d : A) : A :=
  match a with
  | Some x => x
  | None => d
  end.

(** Assignment to a [DECIMAL(3,2)] column: the value is rounded to two
    decimal places, a tie going away from zero, and must stay below 10 in
    absolute value. *)
Definition to_decimal_3_2 (q : Q) : sql_result Q :=
  let cents :=
    if Qle_bool 0 q then Qfloor (q * 100 + (1 # 2))
    else (- Qfloor (- q * 100 + (1 # 2)))%Z in
  if (Z.abs cents <? 1000)%Z then Ok (inject_Z cents / 100)
  else Raise numeric_value_out_of_range.

(** *** create_notification *)

Definition create_notification (new_id : uuid)
    (user_id_param : uuid) (type_param : NotificationType)
    (title_param message_param : string) (data_param : list (string * uuid))
    (db : database) : uuid * database :=
  let notification_id := new_id in
  (notification_id,
   {| users := users db; rides := rides db;
      ride_passengers := ride_passengers db;
      ride_requests := ride_requests db; ratings := ratings db;
      notifications :=
        notifications db ++
        [ {| Notifications.id := new_id;
             Notifications.user_id := user_id_param;
             Notifications.type := type_param;
             Notifications.title := title_param;
             Notifications.message := message_param;
             Notifications.data := data_param |} ] |}).

(** *** approve_ride_request *)

(** [SELECT * FROM ride_requests rr JOIN rides r ON rr.ride_id = r.id
     WHERE rr.id = request_id_param AND rr.status = 'pending'],
    the first row of which [SELECT INTO] keeps. *)
Definition select_pending_request (request_id_param : uuid) (db : database)
  : option (RideRequests.row * Rides.row) :=
  hd_error
    (filter (fun '(rr, r) =>
               N.eqb (RideRequests.id rr) request_id_param &&
               holds (eq_enum RequestStatus_eqb (RideRequests.status rr) pending))
       (filter (fun '(rr, r) => N.eqb (RideRequests.ride_id rr) (Rides.id r))
          (list_prod (ride_requests db) (rides db)))).

(** [SELECT (r.available_seats - COUNT(rp.passenger_id))
     FROM rides r LEFT JOIN ride_passengers rp ON r.id = rp.ride_id
     WHERE r.id = ride_id GROUP BY r.available_seats]:
    [rides.id] is the primary key, so there is one group at most; no row
    gives NULL. *)
Definition select_available_seats_count (ride_id : uuid) (db : database) : option Z :=
  match filter (fun r => N.eqb (Rides.id r) ride_id) (rides db) with
  | [] => None
  | r :: _ =>
      Some (Rides.available_seats r -
            COUNT (filter (fun rp => N.eqb (Rides.id r) (RidePassengers.ride_id rp))
                          (ride_passengers db)))%Z
  end.

(** [UPDATE ride_requests SET status = 'approved' WHERE id = request_id_param] *)
Definition update_request_approved (request_id_param : uuid) (db : database) : database :=
  {| users := users db; rides := rides db;
     ride_passengers := ride_passengers db;
     ride_requests :=
       map (fun rr =>
              if N.eqb (RideRequests.id rr) request_id_param then
                {| RideRequests.id := RideRequests.id rr;
                   RideRequests.passenger_id := RideRequests.passenger_id rr;
                   RideRequests.ride_id := RideRequests.ride_id rr;
                   RideRequests.status := Some approved;
                   RideRequests.requested_seats := RideRequests.requested_seats rr |}
              else rr)
           (ride_requests db);
     ratings := ratings db; notifications := notifications db |}.

(** [INSERT INTO ride_passengers (ride_id, passenger_id) VALUES (...)],
    under [UNIQUE(ride_id, passenger_id)]. *)
Definition insert_ride_passenger (ride_id passenger_id : uuid) (db : database)
  : sql_result database :=
  if existsb (fun rp =>
                N.eqb (RidePassengers.ride_id rp) ride_id &&
                N.eqb (RidePassengers.passenger_id rp) passenger_id)
             (ride_passengers db)
  then Raise unique_violation
  else Ok {| users := users db; rides := rides db;
             ride_passengers :=
               ride_passengers db ++
               [ {| RidePassengers.ride_id := ride_id;
                    RidePassengers.passenger_id := passenger_id |} ];
             ride_requests := ride_requests db; ratings := ratings db;
             notifications := notifications db |}.

Definition approve_ride_request (new_id : uuid) (request_id_param : uuid) (db : database)
  : sql_result (bool * database) :=
  (* Get the request details *)
  match select_pending_request request_id_param db with
  | None => Ok (false, db)
  | Some (rr, _) =>
      let request_record := rr in
      (* Check available seats *)
      let available_seats_count :=
        select_available_seats_count (RideRequests.ride_id request_record) db in
      if holds (lt_int available_seats_count
                       (RideRequests.requested_seats request_record))
      then Ok (false, db)
      else
        (* Approve the request *)
        let db1 := update_request_approved request_id_param db in
        (* Add passenger to ride *)
        match insert_ride_passenger (RideRequests.ride_id request_record)
                                    (RideRequests.passenger_id request_record) db1 with
        | Raise e => Raise e
        | Ok db2 =>
            (* Create notification for passenger *)
            let '(_, db3) :=
              create_notification new_id
                (RideRequests.passenger_id request_record)
                ride_approved
                "Ride Request Approved!"%string
                "Your request to join the ride has been approved."%string
                [("ride_id"%string, RideRequests.ride_id request_record)]
                db2 in
            Ok (true, db3)
        end
  end.

(** The database after a call: an error rolls the call back. *)
Definition after_approve (db : database) (call : uuid * uuid) : database :=
  match approve_ride_request (fst call) (snd call) db with
  | Ok (_, db') => db'
  | Raise _ => db
  end.

(** A sequence of calls, each given as the pair of the identifier drawn for
    the notification and the identifier of the request. *)
Definition approve_all (calls : list (uuid * uuid)) (db : database) : database :=
  fold_left after_approve calls db.

(** *** ratings: insertion and the trigger update_user_rating *)

(** [UPDATE public.users SET rating = ..., total_ratings = ...
     WHERE id = NEW.rated_user_id], run for each inserted row. *)
Definition update_user_rating (NEW : Ratings.row) (db : database) : sql_result database :=
  let targeting :=
    filter (fun r => N.eqb (Ratings.rated_user_id r) (Ratings.rated_user_id NEW))
           (ratings db) in
  let new_rating :=
    COALESCE (AVG (map (fun r => inject_Z (Ratings.score r)) targeting)) 0 in
  let new_total := COUNT targeting in
  if existsb (fun u => N.eqb (Users.id u) (Ratings.rated_user_id NEW)) (users db) then
    match to_decimal_3_2 new_rating with
    | Raise e => Raise e
    | Ok stored =>
        Ok {| users :=
                map (fun u =>
                       if N.eqb (Users.id u) (Ratings.rated_user_id NEW) then
                         {| Users.id := Users.id u;
                            Users.rating := Some stored;
                            Users.total_ratings := Some new_total |}
                       else u)
                    (users db);
              rides := rides db; ride_passengers := ride_passengers db;
              ride_requests := ride_requests db; ratings := ratings db;
              notifications := notifications db |}
    end
  else Ok db.

(** [INSERT INTO ratings VALUES (NEW)] under the table's [CHECK] and
    [UNIQUE(rater_id, rated_user_id, ride_id, type)], followed by the
    [AFTER INSERT] trigger. *)
Definition insert_rating (NEW : Ratings.row) (db : database) : sql_result database :=
  if negb ((1 <=? Ratings.score NEW)%Z && (Ratings.score NEW <=? 5)%Z) then
    Raise check_violation
  else if existsb (fun r =>
                     N.eqb (Ratings.rater_id r) (Ratings.rater_id NEW) &&
                     N.eqb (Ratings.rated_user_id r) (Ratings.rated_user_id NEW) &&
                     N.eqb (Ratings.ride_id r) (Ratings.ride_id NEW) &&
                     rating_type_eqb (Ratings.type r) (Ratings.type NEW))
                  (ratings db)
  then Raise unique_violation
  else
    update_user_rating NEW
      {| users := users db; rides := rides db;
         ride_passengers := ride_passengers db;
         ride_requests := ride_requests db;
         ratings := ratings db ++ [NEW];
         notifications := notifications db |}.

End Supabase.

(* ================================================================== *)
(** * Notions used to state the properties *)

Module SearchSpec.

Import SearchRides.

Section Criteria.

Variable toDateString : Date -> string.

(** What each block of [handleSearch] asks of a ride; an absent or falsy
    criterion asks nothing. *)
Definition fromCityOk (criteria : SearchCriteria.t) (ride : Ride.t) : bool :=
  match SearchCriteria.fromCity criteria with
  | Some fromCity =>
      if JSString.truthy fromCity then
        JSString.includes
          (JSString.toLowerCase (Location.city (Ride.fromLocation ride)))
          (JSString.toLowerCase fromCity) ||
        JSString.includes
          (JSString.toLowerCase (Location.address (Ride.fromLocation ride)))
          (JSString.toLowerCase fromCity)
      else true
  | None => true
  end.

Definition toCityOk (criteria : SearchCriteria.t) (ride : Ride.t) : bool :=
  match SearchCriteria.toCity criteria with
  | Some toCity =>
      if JSString.truthy toCity then
        JSString.includes
          (JSString.toLowerCase (Location.city (Ride.toLocation ride)))
          (JSString.toLowerCase toCity) ||
        JSString.includes
          (JSString.toLowerCase (Location.address (Ride.toLocation ride)))
          (JSString.toLowerCase toCity)
      else true
  | None => true
  end.

Definition departureDateOk (criteria : SearchCriteria.t) (ride : Ride.t) : bool :=
  match SearchCriteria.departureDate criteria with
  | Some departureDate =>
      String.eqb (toDateString (Ride.departureTime ride)) (toDateString departureDate)
  | None => true
  end.

Definition maxCostOk (criteria : SearchCriteria.t) (ride : Ride.t) : bool :=
  match SearchCriteria.maxCostPerSeat criteria with
  | Some maxCostPerSeat =>
      if JSNumber.truthy maxCostPerSeat then le (Ride.costPerSeat ride) maxCostPerSeat
      else true
  | None => true
  end.

Definition seatsOk (criteria : SearchCriteria.t) (ride : Ride.t) : bool :=
  match SearchCriteria.availableSeats criteria with
  | Some availableSeats =>
      if JSNumber.truthy availableSeats then ge (Ride.availableSeats ride) availableSeats
      else true
  | None => true
  end.

Definition genderOk (criteria : SearchCriteria.t) (ride : Ride.t) : bool :=
  match SearchCriteria.genderPreference criteria with
  | Some genderPreference =>
      Gender_eqb (RidePreferences.genderPreference (Ride.preferences ride)) any ||
      Gender_eqb (RidePreferences.genderPreference (Ride.preferences ride)) genderPreference
  | None => true
  end.

End Criteria.

(** The criteria with the seat criterion taken out. *)
Definition withoutSeats (criteria : SearchCriteria.t) : SearchCriteria.t :=
  {| SearchCriteria.fromCity := SearchCriteria.fromCity criteria;
     SearchCriteria.toCity := SearchCriteria.toCity criteria;
     SearchCriteria.departureDate := SearchCriteria.departureDate criteria;
     SearchCriteria.maxCostPerSeat := SearchCriteria.maxCostPerSeat criteria;
     SearchCriteria.availableSeats := None;
     SearchCriteria.genderPreference := SearchCriteria.genderPreference criteria |}.

(** The seats of a ride that remain once its passengers are seated:
    [ride.availableSeats - ride.passengers.length]. *)
Definition remainingSeats (ride : Ride.t) : number :=
  sub (Ride.availableSeats ride) (of_nat (List.length (Ride.passengers ride))).

(** A pending join request of the user for the ride. *)
Definition pendingRequest (userId rideId : string) (req : RideRequest.t) : Prop :=
  RideRequest.passengerId req = userId /\
  RideRequest.rideId req = rideId /\
  RideRequest.status req = pending.

End SearchSpec.

Module ApprovalSpec.

Import Supabase.

(** The passengers of a ride. *)
Definition passenger_count (db : database) (ride_id : uuid) : Z :=
  COUNT (filter (fun rp => N.eqb ride_id (RidePassengers.ride_id rp))
                (ride_passengers db)).


(** Primary keys: [rides.id] and [ride_requests.id]. *)
Definition rides_key_ok (db : database) : Prop :=
  NoDup (map Rides.id (rides db)).

Definition requests_key_ok (db : database) : Prop :=
  NoDup (map RideRequests.id (ride_requests db)).


(** One step of the status machine of a join request under approval. *)
Definition approval_step (request_id : uuid) (before after : RideRequests.row) : Prop :=
  RideRequests.id after = RideRequests.id before /\
  RideRequests.passenger_id after = RideRequests.passenger_id before /\
  RideRequests.ride_id after = RideRequests.ride_id before /\
  (RideRequests.status after = RideRequests.status before \/
   (RideRequests.id before = request_id /\
    RideRequests.status before = Some pending /\
    RideRequests.status after = Some approved)).

End ApprovalSpec.

Module RatingSpec.

(** The mean of a non-empty list of rationals. *)
Definition mean (values : list Q) : Q :=
  fold_right Qplus 0 values / inject_Z (Z.of_nat (List.length values)).

(** [q] is [m] rounded to a multiple of [unit]: a multiple of [unit] at
    most half a unit away from [m]. *)
Definition rounded_to (unit q m : Q) : Prop :=
  (exists k : Z, q == inject_Z k * unit) /\ Qabs (q - m) <= unit / 2.

(** The scores given to a user, in the database and in the local storage. *)
Definition scores_of (db : Supabase.database) (user_id : Supabase.uuid) : list Z :=
  map Supabase.Ratings.score
      (filter (fun r => N.eqb (Supabase.Ratings.rated_user_id r) user_id)
              (Supabase.ratings db)).

Definition scores_valid (db : Supabase.database) : Prop :=
  forall r, In r (Supabase.ratings db) ->
    (1 <= Supabase.Ratings.score r <= 5)%Z.

End RatingSpec.

Module StorageSpec.

(** An update that sets the status of a join request and nothing else. *)
Definition onlyStatus (status : RequestStatus) : PartialRideRequest.t :=
  {| PartialRideRequest.id := None; PartialRideRequest.passengerId := None;
     PartialRideRequest.rideId := None; PartialRideRequest.ride := None;
     PartialRideRequest.status := Some status; PartialRideRequest.message := None;
     PartialRideRequest.requestedSeats := None; PartialRideRequest.createdAt := None;
     PartialRideRequest.updatedAt := None |}.

(** [a] was created no earlier than [b]. *)
Definition notOlder (a b : Notification.t) : Prop :=
  (Notification.createdAt b <= Notification.createdAt a)%Z.

(** The unread notifications of a user, as stored. *)
Definition unreadOf (userId : string) (ls : Storage.LocalStorage) : list Notification.t :=
  filter (fun n => String.eqb (Notification.userId n) userId &&
                   negb (Notification.isRead n))
         (Storage.NOTIFICATIONS ls).

End StorageSpec.

Module ApprovalQueueSpec.

Import Supabase ApprovalSpec.

(** Requests waiting for a ride: pending requests of one seat each for the
    ride [r], of passengers that differ from one another and are not on
    the ride, in a database whose keys hold and in which the ride is not
    over its seats. *)
Definition waiting (db : database) (r : Rides.row) (rows : list RideRequests.row) : Prop :=
  rides_key_ok db /\ requests_key_ok db /\ In r (rides db) /\
  (forall rr, In rr rows ->
     In rr (ride_requests db) /\
     RideRequests.status rr = Some pending /\
     RideRequests.ride_id rr = Rides.id r /\
     RideRequests.requested_seats rr = Some 1%Z) /\
  NoDup (map RideRequests.passenger_id rows) /\
  (forall rr rp, In rr rows -> In rp (ride_passengers db) ->
     ~ (RidePassengers.ride_id rp = Rides.id r /\
        RidePassengers.passenger_id rp = RideRequests.passenger_id rr)) /\
  (passenger_count db (Rides.id r) <= Rides.available_seats r)%Z.

End ApprovalQueueSpec.

Module FormSpec.

(** The criteria that the form hands to [onSearch]. *)
Definition sent (form : SearchCriteria.t) : SearchCriteria.t :=
  SearchFilters.handleSearch (fun searchCriteria => searchCriteria) form.

(** The search started from the form on a page. *)
Definition searchFromForm (toDateString : Date -> string)
    (page : SearchRides.Component) (form : SearchCriteria.t) : SearchRides.Component :=
  SearchFilters.handleSearch
    (fun searchCriteria => SearchRides.handleSearch toDateString searchCriteria page)
    form.

(** The state of a form with another choice of gender. *)
Definition withGender (gender : option Gender) (form : SearchCriteria.t)
  : SearchCriteria.t :=
  {| SearchCriteria.fromCity := SearchCriteria.fromCity form;
     SearchCriteria.toCity := SearchCriteria.toCity form;
     SearchCriteria.departureDate := SearchCriteria.departureDate form;
     SearchCriteria.maxCostPerSeat := SearchCriteria.maxCostPerSeat form;
     SearchCriteria.availableSeats := SearchCriteria.availableSeats form;
     SearchCriteria.genderPreference := gender |}.

(** A field of the form that is left blank: absent, or white space only. *)
Definition blank (field : option string) : Prop :=
  forall s, field = Some s -> JSString.trim s = EmptyString.

(** A number of the form that is not positive: absent, zero, negative or NaN. *)
Definition notPositive (field : option number) : Prop :=
  forall n, field = Some n -> lt (Num 0) n = false.

End FormSpec.

(* ================================================================== *)
(** * Sample data *)

Module Sample.

(** A storage with one offer of three seats, two of them taken, and one
    ride of type 'request'; the user looking at the page is a third
    student. *)
Definition campus : Location.t :=
  {| Location.address := "University Campus"; Location.city := "Austin";
     Location.state := "TX" |}.

Definition downtown : Location.t :=
  {| Location.address := "Downtown Area"; Location.city := "Dallas";
     Location.state := "TX" |}.

Definition anyone : RidePreferences.t :=
  {| RidePreferences.smokingAllowed := false; RidePreferences.petsAllowed := false;
     RidePreferences.musicAllowed := true; RidePreferences.genderPreference := any |}.

Definition ride_two_taken : Ride.t :=
  {| Ride.id := "ride-1"; Ride.driverId := "driver-1"; Ride.type := offer;
     Ride.fromLocation := campus; Ride.toLocation := downtown;
     Ride.departureTime := 1700000000000%Z;
     Ride.availableSeats := Num 3; Ride.costPerSeat := Num 15;
     Ride.description := "after classes"; Ride.status := active;
     Ride.preferences := anyone; Ride.passengers := ["p1"; "p2"]%string |}.

Definition ride_wanted : Ride.t :=
  {| Ride.id := "ride-2"; Ride.driverId := "rider-7"; Ride.type := request;
     Ride.fromLocation := campus; Ride.toLocation := downtown;
     Ride.departureTime := 1700000000000%Z;
     Ride.availableSeats := Num 1; Ride.costPerSeat := Num 10;
     Ride.description := "need a lift"; Ride.status := active;
     Ride.preferences := anyone; Ride.passengers := [] |}.

Definition student : User.t :=
  {| User.id := "u9"; User.firstName := "Uma"; User.lastName := "Rao";
     User.email := "uma@student.college.edu" |}.

Definition demo_storage : Storage.LocalStorage :=
  {| Storage.USER := Some student;
     Storage.RIDES := [ride_two_taken; ride_wanted];
     Storage.RATINGS := []; Storage.NOTIFICATIONS := [];
     Storage.RIDE_REQUESTS := [] |}.

Definition blank_page : SearchRides.Component :=
  {| SearchRides.rides := []; SearchRides.filteredRides := [];
     SearchRides.loading := true; SearchRides.user := None;
     SearchRides.message := "" |}.

Definition two_seats : SearchCriteria.t :=
  {| SearchCriteria.fromCity := None; SearchCriteria.toCity := None;
     SearchCriteria.departureDate := None; SearchCriteria.maxCostPerSeat := None;
     SearchCriteria.availableSeats := Some (Num 2);
     SearchCriteria.genderPreference := None |}.

Definition first_draw : SearchRides.Fresh :=
  {| SearchRides.requestId := "req-1"; SearchRides.requestCreatedAt := 1700000001000%Z;
     SearchRides.requestUpdatedAt := 1700000001000%Z;
     SearchRides.notificationId := "note-1";
     SearchRides.notificationCreatedAt := 1700000001001%Z |}.

Definition second_draw : SearchRides.Fresh :=
  {| SearchRides.requestId := "req-2"; SearchRides.requestCreatedAt := 1700000002000%Z;
     SearchRides.requestUpdatedAt := 1700000002000%Z;
     SearchRides.notificationId := "note-2";
     SearchRides.notificationCreatedAt := 1700000002001%Z |}.

(** The page once loaded, and the storage after a first join request. *)
Definition loaded_page : SearchRides.Component :=
  SearchRides.useEffect demo_storage blank_page.

Definition storage_after_request : Storage.LocalStorage :=
  snd (SearchRides.handleJoinRide first_draw "ride-1" (loaded_page, demo_storage)).

(** A database with one ride of a single seat and three requests to join
    it: two pending ones and a rejected one. *)
Definition one_seat_ride : Supabase.Rides.row :=
  {| Supabase.Rides.id := 1%N; Supabase.Rides.driver_id := 50%N;
     Supabase.Rides.type := offer; Supabase.Rides.available_seats := 1%Z;
     Supabase.Rides.status := Some active |}.

Definition join_request (id passenger : N) (status : RequestStatus)
  : Supabase.RideRequests.row :=
  {| Supabase.RideRequests.id := id;
     Supabase.RideRequests.passenger_id := passenger;
     Supabase.RideRequests.ride_id := 1%N;
     Supabase.RideRequests.status := Some status;
     Supabase.RideRequests.requested_seats := Some 1%Z |}.

Definition carpool_db : Supabase.database :=
  {| Supabase.users :=
       [ {| Supabase.Users.id := 100%N; Supabase.Users.rating := Some 0;
            Supabase.Users.total_ratings := Some 0%Z |} ];
     Supabase.rides := [one_seat_ride];
     Supabase.ride_passengers := [];
     Supabase.ride_requests :=
       [join_request 10%N 100%N pending; join_request 11%N 101%N pending;
        join_request 12%N 102%N rejected];
     Supabase.ratings := [];
     Supabase.notifications := [] |}.

(** The same database once request 10 is approved: the seat is taken. *)
Definition carpool_db_full : Supabase.database :=
  Supabase.approve_all [(900%N, 10%N)] carpool_db.

(** Three ratings of one student, of 4, 4 and 5, in the local storage and
    in the database. *)
Definition local_rating (id : string) (score : Q) : Rating.t :=
  {| Rating.id := id; Rating.raterId := "u9"; Rating.ratedUserId := "driver-1";
     Rating.rideId := id; Rating.score := Num score |}.

Definition rated_storage : Storage.LocalStorage :=
  Storage.ratingsStorage.addRating (local_rating "r3" 5)
    {| Storage.USER := Some student; Storage.RIDES := [];
       Storage.RATINGS := [local_rating "r1" 4; local_rating "r2" 4];
       Storage.NOTIFICATIONS := []; Storage.RIDE_REQUESTS := [] |}.

Definition stored_rating (id ride : N) (score : Z) : Supabase.Ratings.row :=
  {| Supabase.Ratings.id := id; Supabase.Ratings.rater_id := 101%N;
     Supabase.Ratings.rated_user_id := 100%N; Supabase.Ratings.ride_id := ride;
     Supabase.Ratings.score := score; Supabase.Ratings.type := Supabase.driver |}.

Definition rated_db : Supabase.database :=
  {| Supabase.users := Supabase.users carpool_db;
     Supabase.rides := Supabase.rides carpool_db;
     Supabase.ride_passengers := []; Supabase.ride_requests := [];
     Supabase.ratings := [stored_rating 1%N 1%N 4%Z; stored_rating 2%N 2%N 4%Z];
     Supabase.notifications := [] |}.

(** A ride of two seats on which passenger 101 already sits, with a
    pending request of the same passenger. *)
Definition two_seat_ride : Supabase.Rides.row :=
  {| Supabase.Rides.id := 1%N; Supabase.Rides.driver_id := 50%N;
     Supabase.Rides.type := offer; Supabase.Rides.available_seats := 2%Z;
     Supabase.Rides.status := Some active |}.

Definition aboard_db : Supabase.database :=
  {| Supabase.users := [];
     Supabase.rides := [two_seat_ride];
     Supabase.ride_passengers :=
       [ {| Supabase.RidePassengers.ride_id := 1%N;
            Supabase.RidePassengers.passenger_id := 101%N |} ];
     Supabase.ride_requests := [join_request 11%N 101%N pending];
     Supabase.ratings := [];
     Supabase.notifications := [] |}.

End Sample.

(* ================================================================== *)
(** * Properties *)

(** ** Arithmetic of finite numbers *)

Lemma sgn_Eq_iff (q : Q) : sgn q = Eq <-> q == 0.
Proof.
  unfold sgn, Qeq. simpl. rewrite Z.compare_eq_iff. lia.
Qed.

Lemma div_finite (a b : Q) : ~ b == 0 -> div (Num a) (Num b) = Num (a / b).
Proof.
  intros Hb. unfold div.
  destruct (sgn b) eqn:E; try reflexivity.
  apply sgn_Eq_iff in E. contradiction.
Qed.

Lemma inject_nat_pos (n : nat) : (0 < n)%nat -> 0 < inject_Z (Z.of_nat n).
Proof.
  intros H. unfold Qlt. simpl. lia.
Qed.

Lemma div_of_nat (a : Q) (n : nat) :
  (0 < n)%nat -> div (Num a) (of_nat n) = Num (a / inject_Z (Z.of_nat n)).
Proof.
  intros H. unfold of_nat. apply div_finite.
  pose proof (inject_nat_pos n H). lra.
Qed.

(** [Math.round(y)] is within one half of [y]. *)
Lemma round_bounds (y : Q) :
  y - (1 # 2) < inject_Z (Qfloor (y + (1 # 2))) /\
  inject_Z (Qfloor (y + (1 # 2))) <= y + (1 # 2).
Proof.
  split.
  - pose proof (Qlt_floor (y + (1 # 2))) as H.
    rewrite inject_Z_plus in H. change (inject_Z 1) with 1 in H. lra.
  - apply Qfloor_le.
Qed.

Lemma round_monotone (y1 y2 : Q) :
  y1 <= y2 ->
  inject_Z (Qfloor (y1 + (1 # 2))) <= inject_Z (Qfloor (y2 + (1 # 2))).
Proof.
  intros H. rewrite <- Zle_Qle. apply Qfloor_resp_le. lra.
Qed.



(* ------------------------------------------------------------------ *)
(** ** costCalculator.ts: the cost split *)

Section CostSplit.

Import CostCalculator.




(** C6.  With no passenger the driver bears the whole cost: for every
    total cost, [calculateRideCost] on an empty passenger list returns
    [costPerSeat] and [driverShare] equal to the total cost and an empty
    list of shares, whatever [includeDriverInSplit] is; in particular for
    a total cost of 100. *)
Theorem calculateRideCost_no_passengers :
  (forall (total : number) (driver : string) (incl : option bool),
     calculateRideCost
       {| totalCost := total; driverId := driver; passengerIds := [];
          includeDriverInSplit := incl |}
     = Normal {| cb_totalCost := total; costPerSeat := total;
                 numberOfPassengers := 0; driverShare := total;
                 passengerShares := [] |}) /\
  (forall (driver : string) (incl : option bool),
     calculateRideCost
       {| totalCost := Num 100; driverId := driver; passengerIds := [];
          includeDriverInSplit := incl |}
     = Normal {| cb_totalCost := Num 100; costPerSeat := Num 100;
                 numberOfPassengers := 0; driverShare := Num 100;
                 passengerShares := [] |}).
Proof.
  split; intros; reflexivity.
Qed.



End CostSplit.

(* ------------------------------------------------------------------ *)
(** ** costCalculator.ts: the distance based cost *)

Section DistanceCost.

Import CostCalculator.

(** The value returned for finite arguments and a non-zero efficiency. *)
Lemma calculateDistanceBasedCost_finite
    (oe op ox : option number) (d e p x : Q) :
  dflt oe (Num 12) = Num e ->
  dflt op (Num (3 # 2)) = Num p ->
  dflt ox (Num (1 # 10)) = Num x ->
  ~ e == 0 ->
  calculateDistanceBasedCost (Num d) oe op ox =
  Normal (Num (inject_Z (Qfloor ((d / e * p + d * x) * 100 + (1 # 2))) / 100)).
Proof.
  intros He Hp Hx Hnz. unfold calculateDistanceBasedCost.
  rewrite He, Hp, Hx. rewrite (div_finite d e Hnz). reflexivity.
Qed.











End DistanceCost.

(* ------------------------------------------------------------------ *)
(** ** SearchRides.tsx: the search *)

Section SearchProperties.

Import SearchRides SearchSpec.

Variable toDateString : Date -> string.

Lemma filter_filter {A : Type} (p q : A -> bool) (l : list A) :
  filter q (filter p l) = filter (fun x => p x && q x) l.
Proof.
  induction l as [| a l IH]; [reflexivity |].
  simpl. destruct (p a); simpl; [destruct (q a) |]; rewrite IH; reflexivity.
Qed.

Lemma filter_true {A : Type} (l : list A) : filter (fun _ => true) l = l.
Proof. induction l as [| a l IH]; [reflexivity | simpl; rewrite IH; reflexivity]. Qed.

(** [handleSearch] keeps the rides of the page that pass every block. *)
Lemma handleSearch_filter (criteria : SearchCriteria.t) (c : Component) :
  filteredRides (handleSearch toDateString criteria c) =
  filter (genderOk criteria)
    (filter (seatsOk criteria)
       (filter (maxCostOk criteria)
          (filter (departureDateOk toDateString criteria)
             (filter (toCityOk criteria)
                (filter (fromCityOk criteria) (rides c)))))).
Proof.
  unfold handleSearch, setFilteredRides, fromCityOk, toCityOk, departureDateOk,
    maxCostOk, seatsOk, genderOk.
  cbn [filteredRides].
  destruct criteria as [fc tc dd mc av gp]. cbn.
  destruct fc as [fc |]; [destruct (JSString.truthy fc) |];
    rewrite ?filter_true;
  (destruct tc as [tc |]; [destruct (JSString.truthy tc) |];
    rewrite ?filter_true;
   (destruct dd as [dd |]; rewrite ?filter_true;
    (destruct mc as [mc |]; [destruct (JSNumber.truthy mc) |];
      rewrite ?filter_true;
     (destruct av as [av |]; [destruct (JSNumber.truthy av) |];
       rewrite ?filter_true;
      (destruct gp as [gp |]; rewrite ?filter_true; reflexivity))))).
Qed.

Lemma handleSearch_rides (criteria : SearchCriteria.t) (c : Component) :
  rides (handleSearch toDateString criteria c) = rides c.
Proof. reflexivity. Qed.

Lemma handleSearch_subset (criteria : SearchCriteria.t) (c : Component) (r : Ride.t) :
  In r (filteredRides (handleSearch toDateString criteria c)) -> In r (rides c).
Proof.
  rewrite handleSearch_filter. intros H.
  repeat (apply filter_In in H; destruct H as [H _]). exact H.
Qed.

Lemma filter_comm {A : Type} (p q : A -> bool) (l : list A) :
  filter q (filter p l) = filter p (filter q l).
Proof.
  rewrite !filter_filter. apply filter_ext. intros a. apply andb_comm.
Qed.

(** C3, as the code has it.  When [criteria.availableSeats] is present and
    truthy (neither 0 nor NaN), the search keeps, of the rides that pass
    the other criteria and in their order, exactly those whose stored
    [availableSeats] field is at least [criteria.availableSeats]; the
    passengers of the ride are not subtracted.  When it is present and
    falsy, it filters nothing. *)
Theorem handleSearch_availableSeats
    (criteria : SearchCriteria.t) (c : Component) (n : number) :
  SearchCriteria.availableSeats criteria = Some n ->
  (JSNumber.truthy n = true ->
   filteredRides (handleSearch toDateString criteria c) =
   filter (fun ride => ge (Ride.availableSeats ride) n)
          (filteredRides (handleSearch toDateString (withoutSeats criteria) c))) /\
  (JSNumber.truthy n = false ->
   filteredRides (handleSearch toDateString criteria c) =
   filteredRides (handleSearch toDateString (withoutSeats criteria) c)).
Proof.
  intros Hn.
  rewrite !handleSearch_filter.
  change (fromCityOk (withoutSeats criteria)) with (fromCityOk criteria).
  change (toCityOk (withoutSeats criteria)) with (toCityOk criteria).
  change (departureDateOk toDateString (withoutSeats criteria))
    with (departureDateOk toDateString criteria).
  change (maxCostOk (withoutSeats criteria)) with (maxCostOk criteria).
  change (genderOk (withoutSeats criteria)) with (genderOk criteria).
  change (seatsOk (withoutSeats criteria)) with (fun _ : Ride.t => true).
  rewrite filter_true.
  split; intros Ht.
  - rewrite (filter_comm (genderOk criteria)).
    f_equal. apply filter_ext. intros ride.
    unfold seatsOk. rewrite Hn, Ht. reflexivity.
  - f_equal. rewrite <- filter_true. apply filter_ext. intros ride.
    unfold seatsOk. rewrite Hn, Ht. reflexivity.
Qed.

Lemma useEffect_offers (ls : Storage.LocalStorage) (c : Component) :
  Forall (fun ride => Ride.type ride = offer) (rides (useEffect ls c)).
Proof.
  apply Forall_forall. intros ride Hin.
  unfold useEffect in Hin. cbn [rides] in Hin.
  apply filter_In in Hin. destruct Hin as [_ Hp].
  apply andb_prop in Hp. destruct Hp as [Hp _].
  apply andb_prop in Hp. destruct Hp as [_ Hp].
  destruct (Ride.type ride); [reflexivity | discriminate Hp].
Qed.

(** C10.  Every ride that the page shows is an offer: the effect that
    loads the page keeps only rides of type 'offer' as candidates, and so
    the rides shown after loading, after a search with any criteria and
    after clearing the search are all offers. *)
Theorem search_results_are_offers (ls : Storage.LocalStorage) (c : Component) :
  Forall (fun ride => Ride.type ride = offer) (rides (useEffect ls c)) /\
  Forall (fun ride => Ride.type ride = offer) (filteredRides (useEffect ls c)) /\
  (forall criteria,
     Forall (fun ride => Ride.type ride = offer)
            (filteredRides (handleSearch toDateString criteria (useEffect ls c)))) /\
  (forall criteria,
     Forall (fun ride => Ride.type ride = offer)
            (filteredRides
               (handleClearSearch (handleSearch toDateString criteria (useEffect ls c))))).
Proof.
  pose proof (useEffect_offers ls c) as H.
  split; [exact H |]. split; [exact H |]. split.
  - intros criteria. rewrite Forall_forall in *. intros ride Hin.
    apply H. eapply handleSearch_subset. exact Hin.
  - intros criteria. exact H.
Qed.

End SearchProperties.

Lemma handleSearch_availableSeats_witness :
  SearchCriteria.availableSeats Sample.two_seats = Some (Num 2) /\
  JSNumber.truthy (Num 2) = true /\
  SearchRides.filteredRides
    (SearchRides.handleSearch (fun _ => EmptyString) Sample.two_seats
       (SearchRides.useEffect Sample.demo_storage Sample.blank_page)) =
  filter (fun ride => ge (Ride.availableSeats ride) (Num 2))
    (SearchRides.filteredRides
       (SearchRides.handleSearch (fun _ => EmptyString)
          (SearchSpec.withoutSeats Sample.two_seats)
          (SearchRides.useEffect Sample.demo_storage Sample.blank_page))).
Proof.
  split; [reflexivity |]. split; [reflexivity |].
  exact (proj1 (handleSearch_availableSeats (fun _ => EmptyString) Sample.two_seats
                  (SearchRides.useEffect Sample.demo_storage Sample.blank_page)
                  (Num 2) eq_refl) eq_refl).
Defined.

(** C3, as the claim states it, fails.  An offer posted with three seats
    of which two are taken has one seat left; a search for two seats still
    returns it, because the filter reads the stored [availableSeats]. *)
Lemma handleSearch_ignores_passengers :
  SearchRides.filteredRides
    (SearchRides.handleSearch (fun _ => EmptyString) Sample.two_seats
       (SearchRides.useEffect Sample.demo_storage Sample.blank_page)) =
  [Sample.ride_two_taken] /\
  strict_eq (SearchSpec.remainingSeats Sample.ride_two_taken) (Num 1) = true /\
  ge (SearchSpec.remainingSeats Sample.ride_two_taken) (Num 2) = false.
Proof.
  split; [reflexivity |]. split; reflexivity.
Qed.

(* ------------------------------------------------------------------ *)
(** ** SearchRides.tsx: the join request *)

Section JoinRequest.

Import Storage SearchRides SearchSpec.

Lemma hasRequested_true (userId rideId : string) (ls : LocalStorage) :
  (exists req, In req (RIDE_REQUESTS ls) /\ pendingRequest userId rideId req) ->
  some (fun req =>
          String.eqb (RideRequest.rideId req) rideId &&
          RequestStatus_eqb (RideRequest.status req) pending)
       (rideRequestsStorage.getUserRequests userId ls) = true.
Proof.
  intros [req [Hin [Hp [Hr Hs]]]].
  unfold some. apply existsb_exists. exists req. split.
  - unfold rideRequestsStorage.getUserRequests, rideRequestsStorage.getRequests.
    apply filter_In. split; [exact Hin |].
    rewrite Hp. apply String.eqb_refl.
  - rewrite Hr, Hs, String.eqb_refl. reflexivity.
Qed.

(** A pending request of the user for the ride stops [handleJoinRide]
    before anything is stored. *)
Lemma handleJoinRide_pending
    (fresh : Fresh) (rideId : string) (c : Component) (ls : LocalStorage)
    (u : User.t) :
  user c = Some u ->
  (exists req, In req (RIDE_REQUESTS ls) /\ pendingRequest (User.id u) rideId req) ->
  snd (handleJoinRide fresh rideId (c, ls)) = ls /\
  (forall ride,
     find (fun r => String.eqb (Ride.id r) rideId) (rides c) = Some ride ->
     le (Ride.availableSeats ride) (Num 0) = false ->
     handleJoinRide fresh rideId (c, ls) =
     (setMessage "You have already requested to join this ride" c, ls)).
Proof.
  intros Hu Hpending.
  pose proof (hasRequested_true (User.id u) rideId ls Hpending) as Hreq.
  unfold handleJoinRide. rewrite Hu.
  split.
  - destruct (find _ (rides c)) as [ride |]; [| reflexivity].
    destruct (le (Ride.availableSeats ride) (Num 0)); [reflexivity |].
    rewrite Hreq. reflexivity.
  - intros ride Hfind Hseats. rewrite Hfind, Hseats, Hreq. reflexivity.
Qed.

(** A first call that passes its checks stores a pending request of the
    user for the ride. *)
Lemma handleJoinRide_creates
    (fresh : Fresh) (rideId : string) (c : Component) (ls : LocalStorage)
    (u : User.t) (ride : Ride.t) :
  user c = Some u ->
  find (fun r => String.eqb (Ride.id r) rideId) (rides c) = Some ride ->
  le (Ride.availableSeats ride) (Num 0) = false ->
  some (fun req =>
          String.eqb (RideRequest.rideId req) rideId &&
          RequestStatus_eqb (RideRequest.status req) pending)
       (rideRequestsStorage.getUserRequests (User.id u) ls) = false ->
  let w := handleJoinRide fresh rideId (c, ls) in
  user (fst w) = Some u /\ rides (fst w) = rides c /\
  List.length (RIDE_REQUESTS (snd w)) = S (List.length (RIDE_REQUESTS ls)) /\
  List.length (NOTIFICATIONS (snd w)) = S (List.length (NOTIFICATIONS ls)) /\
  exists req, In req (RIDE_REQUESTS (snd w)) /\ pendingRequest (User.id u) rideId req.
Proof.
  intros Hu Hfind Hseats Hnone. unfold handleJoinRide.
  rewrite Hu, Hfind, Hseats, Hnone. cbn.
  split; [exact Hu |]. split; [reflexivity |].
  unfold rideRequestsStorage.getRequests.
  split; [rewrite length_app; simpl; lia |]. split; [reflexivity |].
  eexists. split.
  - apply in_or_app. right. left. reflexivity.
  - repeat split.
Qed.

(** Requesting twice: the second of two calls for the same ride, the
    first of which created a request, is refused as a duplicate and
    stores nothing. *)
Lemma handleJoinRide_twice
    (fresh fresh' : Fresh) (rideId : string) (c : Component) (ls : LocalStorage)
    (u : User.t) (ride : Ride.t) :
  user c = Some u ->
  find (fun r => String.eqb (Ride.id r) rideId) (rides c) = Some ride ->
  le (Ride.availableSeats ride) (Num 0) = false ->
  some (fun req =>
          String.eqb (RideRequest.rideId req) rideId &&
          RequestStatus_eqb (RideRequest.status req) pending)
       (rideRequestsStorage.getUserRequests (User.id u) ls) = false ->
  handleJoinRide fresh' rideId (handleJoinRide fresh rideId (c, ls)) =
  (setMessage "You have already requested to join this ride"
     (fst (handleJoinRide fresh rideId (c, ls))),
   snd (handleJoinRide fresh rideId (c, ls))).
Proof.
  intros Hu Hfind Hseats Hnone.
  destruct (handleJoinRide_creates fresh rideId c ls u ride Hu Hfind Hseats Hnone)
    as [Hu' [Hrides [_ [_ Hpending]]]].
  destruct (handleJoinRide fresh rideId (c, ls)) as [c1 ls1].
  cbn [fst snd] in *.
  apply (proj2 (handleJoinRide_pending fresh' rideId c1 ls1 u Hu' Hpending) ride).
  - rewrite Hrides. exact Hfind.
  - exact Hseats.
Qed.

(** C7.  When the storage holds a pending request of the user for the
    ride, [handleJoinRide] for that ride leaves the storage as it is: no
    request and no notification is created.  When moreover the ride is on
    the page and has a seat (the two checks made before the one for a
    duplicate), the call ends with the message of a duplicate request and
    changes nothing else.  And of two calls in a row for the same ride,
    the first of which created the request, the second ends that way. *)
Theorem handleJoinRide_duplicate
    (fresh : Fresh) (rideId : string) (c : Component) (ls : LocalStorage)
    (u : User.t) :
  user c = Some u ->
  ((exists req, In req (RIDE_REQUESTS ls) /\ pendingRequest (User.id u) rideId req) ->
   snd (handleJoinRide fresh rideId (c, ls)) = ls /\
   (forall ride,
      find (fun r => String.eqb (Ride.id r) rideId) (rides c) = Some ride ->
      le (Ride.availableSeats ride) (Num 0) = false ->
      handleJoinRide fresh rideId (c, ls) =
      (setMessage "You have already requested to join this ride" c, ls))) /\
  (forall fresh0 ls0 ride,
     find (fun r => String.eqb (Ride.id r) rideId) (rides c) = Some ride ->
     le (Ride.availableSeats ride) (Num 0) = false ->
     some (fun req =>
             String.eqb (RideRequest.rideId req) rideId &&
             RequestStatus_eqb (RideRequest.status req) pending)
          (rideRequestsStorage.getUserRequests (User.id u) ls0) = false ->
     List.length (RIDE_REQUESTS (snd (handleJoinRide fresh0 rideId (c, ls0)))) =
       S (List.length (RIDE_REQUESTS ls0)) /\
     handleJoinRide fresh rideId (handleJoinRide fresh0 rideId (c, ls0)) =
     (setMessage "You have already requested to join this ride"
        (fst (handleJoinRide fresh0 rideId (c, ls0))),
      snd (handleJoinRide fresh0 rideId (c, ls0)))).
Proof.
  intros Hu. split.
  - intros Hpending. exact (handleJoinRide_pending fresh rideId c ls u Hu Hpending).
  - intros fresh0 ls0 ride Hfind Hseats Hnone. split.
    + apply (handleJoinRide_creates fresh0 rideId c ls0 u ride Hu Hfind Hseats Hnone).
    + apply (handleJoinRide_twice fresh0 fresh rideId c ls0 u ride); assumption.
Qed.

End JoinRequest.

Lemma handleJoinRide_duplicate_witness :
  SearchRides.handleJoinRide Sample.second_draw "ride-1"
    (Sample.loaded_page, Sample.storage_after_request) =
  (SearchRides.setMessage "You have already requested to join this ride"
     Sample.loaded_page,
   Sample.storage_after_request).
Proof.
  assert (Hpending :
    exists req, In req (Storage.RIDE_REQUESTS Sample.storage_after_request) /\
                SearchSpec.pendingRequest (User.id Sample.student) "ride-1" req).
  { eexists. split; [left; reflexivity | repeat split]. }
  exact (proj2 (proj1 (handleJoinRide_duplicate Sample.second_draw "ride-1"
                         Sample.loaded_page Sample.storage_after_request
                         Sample.student eq_refl) Hpending)
               Sample.ride_two_taken eq_refl eq_refl).
Defined.

(* ------------------------------------------------------------------ *)
(** ** supabase-functions.sql: approve_ride_request *)

Section Approval.

Import Supabase ApprovalSpec.

Lemma filter_nil_iff {A : Type} (p : A -> bool) (l : list A) :
  (forall a, In a l -> p a = false) -> filter p l = [].
Proof.
  induction l as [| a l IH]; intros H; [reflexivity |].
  simpl. rewrite (H a (or_introl eq_refl)). apply IH.
  intros b Hb. apply H. right. exact Hb.
Qed.

(** A list with an element, all of whose elements are that element,
    starts with it. *)
Lemma hd_error_unique {A : Type} (x : A) (l : list A) :
  In x l -> (forall y, In y l -> y = x) -> hd_error l = Some x.
Proof.
  destruct l as [| a l]; intros Hin Hall; [contradiction |].
  simpl. f_equal. apply Hall. left. reflexivity.
Qed.

Lemma key_injective {A : Type} (key : A -> uuid) (l : list A) (a b : A) :
  NoDup (map key l) -> In a l -> In b l -> key a = key b -> a = b.
Proof.
  induction l as [| x l IH]; intros Hnd Ha Hb Hk; [contradiction |].
  simpl in Hnd. inversion Hnd as [| ? ? Hnotin Hnd']. subst.
  destruct Ha as [Ha | Ha], Hb as [Hb | Hb]; subst.
  - reflexivity.
  - exfalso. apply Hnotin. rewrite Hk. apply in_map. exact Hb.
  - exfalso. apply Hnotin. rewrite <- Hk. apply in_map. exact Ha.
  - apply IH; assumption.
Qed.

(** What the first query of [approve_ride_request] finds. *)
Lemma select_pending_request_sound
    (request_id : uuid) (db : database) (rr : RideRequests.row) (r : Rides.row) :
  select_pending_request request_id db = Some (rr, r) ->
  In rr (ride_requests db) /\ In r (rides db) /\
  RideRequests.id rr = request_id /\
  RideRequests.status rr = Some pending /\
  RideRequests.ride_id rr = Rides.id r.
Proof.
  unfold select_pending_request. intros H.
  assert (Hin : In (rr, r)
           (filter (fun '(rr, r) =>
                      N.eqb (RideRequests.id rr) request_id &&
                      holds (eq_enum RequestStatus_eqb (RideRequests.status rr) pending))
              (filter (fun '(rr, r) => N.eqb (RideRequests.ride_id rr) (Rides.id r))
                 (list_prod (ride_requests db) (rides db))))).
  { destruct (filter _ _) as [| x l]; [discriminate H |].
    simpl in H. injection H as ->. left. reflexivity. }
  apply filter_In in Hin. destruct Hin as [Hin Hwhere].
  apply filter_In in Hin. destruct Hin as [Hin Hon].
  apply in_prod_iff in Hin. destruct Hin as [Hrr Hr].
  apply andb_prop in Hwhere. destruct Hwhere as [Hid Hst].
  apply N.eqb_eq in Hid. apply N.eqb_eq in Hon.
  repeat split; try assumption.
  destruct (RideRequests.status rr) as [[| |] |]; simpl in Hst;
    try discriminate Hst. reflexivity.
Qed.

Lemma select_pending_request_none (request_id : uuid) (db : database) :
  (forall rr, In rr (ride_requests db) -> RideRequests.id rr = request_id ->
              RideRequests.status rr <> Some pending) ->
  select_pending_request request_id db = None.
Proof.
  intros H. unfold select_pending_request.
  rewrite filter_nil_iff; [reflexivity |].
  intros [rr r] Hin.
  apply filter_In in Hin. destruct Hin as [Hin _].
  apply in_prod_iff in Hin. destruct Hin as [Hrr _].
  destruct (N.eqb (RideRequests.id rr) request_id) eqn:Hid; [| reflexivity].
  apply N.eqb_eq in Hid. specialize (H rr Hrr Hid).
  destruct (RideRequests.status rr) as [[| |] |]; simpl; try reflexivity.
  exfalso. apply H. reflexivity.
Qed.

Lemma select_pending_request_complete
    (request_id : uuid) (db : database) (rr : RideRequests.row) (r : Rides.row) :
  rides_key_ok db -> requests_key_ok db ->
  In rr (ride_requests db) -> In r (rides db) ->
  RideRequests.id rr = request_id ->
  RideRequests.status rr = Some pending ->
  RideRequests.ride_id rr = Rides.id r ->
  select_pending_request request_id db = Some (rr, r).
Proof.
  intros Hkr Hkq Hrr Hr Hid Hst Hride. unfold select_pending_request.
  apply hd_error_unique.
  - apply filter_In. split.
    + apply filter_In. split.
      * apply in_prod_iff. split; assumption.
      * apply N.eqb_eq. exact Hride.
    + rewrite Hid, N.eqb_refl, Hst. reflexivity.
  - intros [rr' r'] Hin.
    apply filter_In in Hin. destruct Hin as [Hin Hwhere].
    apply filter_In in Hin. destruct Hin as [Hin Hon].
    apply in_prod_iff in Hin. destruct Hin as [Hrr' Hr'].
    apply andb_prop in Hwhere. destruct Hwhere as [Hid' _].
    apply N.eqb_eq in Hid'. apply N.eqb_eq in Hon.
    assert (rr' = rr).
    { apply (key_injective RideRequests.id (ride_requests db)); try assumption.
      congruence. }
    subst rr'.
    assert (r' = r).
    { apply (key_injective Rides.id (rides db)); try assumption. congruence. }
    subst r'. reflexivity.
Qed.

(** Under the primary key, the second query computes the seats of the
    ride less its passengers. *)
Lemma select_available_seats_count_spec (db : database) (r : Rides.row) :
  rides_key_ok db -> In r (rides db) ->
  select_available_seats_count (Rides.id r) db =
  Some (Rides.available_seats r - passenger_count db (Rides.id r))%Z.
Proof.
  intros Hk Hr. unfold select_available_seats_count.
  assert (Hin : In r (filter (fun r' => N.eqb (Rides.id r') (Rides.id r)) (rides db))).
  { apply filter_In. split; [exact Hr | apply N.eqb_refl]. }
  destruct (filter _ (rides db)) as [| r1 l] eqn:E; [contradiction |].
  assert (Hr1 : In r1 (filter (fun r' => N.eqb (Rides.id r') (Rides.id r)) (rides db))).
  { rewrite E. left. reflexivity. }
  apply filter_In in Hr1. destruct Hr1 as [Hr1 Hid]. apply N.eqb_eq in Hid.
  assert (r1 = r) by (apply (key_injective Rides.id (rides db)); assumption).
  subst r1. reflexivity.
Qed.

(** The two ways in which a call of [approve_ride_request] returns. *)
Lemma approve_ride_request_cases
    (new_id request_id : uuid) (db db' : database) (b : bool) :
  approve_ride_request new_id request_id db = Ok (b, db') ->
  (b = false /\ db' = db) \/
  (b = true /\
   exists rr r,
     select_pending_request request_id db = Some (rr, r) /\
     holds (lt_int (select_available_seats_count (RideRequests.ride_id rr) db)
                   (RideRequests.requested_seats rr)) = false /\
     users db' = users db /\ rides db' = rides db /\ ratings db' = ratings db /\
     ride_requests db' = ride_requests (update_request_approved request_id db) /\
     ride_passengers db' =
       ride_passengers db ++
       [ {| RidePassengers.ride_id := RideRequests.ride_id rr;
            RidePassengers.passenger_id := RideRequests.passenger_id rr |} ] /\
     List.length (notifications db') = S (List.length (notifications db))).
Proof.
  unfold approve_ride_request.
  destruct (select_pending_request request_id db) as [[rr r] |] eqn:Hsel.
  - destruct (holds _) eqn:Hfull.
    + intros H. injection H as <- <-. left. split; reflexivity.
    + unfold insert_ride_passenger.
      destruct (existsb _ _); [discriminate |].
      cbn. intros H. injection H as <- <-. right. split; [reflexivity |].
      exists rr, r. repeat split; try reflexivity; try assumption.
      cbn. rewrite length_app. simpl. lia.
  - intros H. injection H as <- <-. left. split; reflexivity.
Qed.






(** A pending request that asks for more seats than the ride has left is
    turned down. *)
Lemma approve_no_capacity
    (new_id request_id : uuid) (db : database)
    (rr : RideRequests.row) (r : Rides.row) (n : Z) :
  rides_key_ok db -> requests_key_ok db ->
  In rr (ride_requests db) -> In r (rides db) ->
  RideRequests.id rr = request_id ->
  RideRequests.status rr = Some pending ->
  RideRequests.ride_id rr = Rides.id r ->
  RideRequests.requested_seats rr = Some n ->
  (Rides.available_seats r - passenger_count db (Rides.id r) < n)%Z ->
  approve_ride_request new_id request_id db = Ok (false, db).
Proof.
  intros Hkr Hkq Hrr Hr Hid Hst Hride Hn Hlt.
  unfold approve_ride_request.
  rewrite (select_pending_request_complete request_id db rr r); try assumption.
  rewrite Hride, (select_available_seats_count_spec db r Hkr Hr), Hn.
  cbn. apply Z.ltb_lt in Hlt. rewrite Hlt. reflexivity.
Qed.


(** A call for a request that is not pending returns false and changes
    nothing. *)
Lemma approve_not_pending (new_id request_id : uuid) (db : database) :
  (forall rr, In rr (ride_requests db) -> RideRequests.id rr = request_id ->
              RideRequests.status rr <> Some pending) ->
  approve_ride_request new_id request_id db = Ok (false, db).
Proof.
  intros H. unfold approve_ride_request.
  rewrite (select_pending_request_none request_id db H). reflexivity.
Qed.

(** After an approval the request is approved, whatever it was. *)
Lemma approved_after_approval
    (new_id request_id : uuid) (db db' : database) :
  approve_ride_request new_id request_id db = Ok (true, db') ->
  forall rr, In rr (ride_requests db') -> RideRequests.id rr = request_id ->
             RideRequests.status rr = Some approved.
Proof.
  intros H rr Hin Hid. apply approve_ride_request_cases in H.
  destruct H as [[Hb _] | [_ [rr0 [r0 [_ [_ [_ [_ [_ [Hreq _]]]]]]]]]];
    [discriminate Hb |].
  rewrite Hreq in Hin. cbn [update_request_approved ride_requests] in Hin.
  apply in_map_iff in Hin. destruct Hin as [rr1 [Heq Hin1]].
  destruct (N.eqb (RideRequests.id rr1) request_id) eqn:E.
  - subst rr. reflexivity.
  - subst rr. apply N.eqb_neq in E. contradiction.
Qed.

(** The rows of [ride_requests] before and after a call, one by one. *)
Lemma approve_steps
    (new_id request_id : uuid) (db db' : database) (b : bool) :
  requests_key_ok db ->
  approve_ride_request new_id request_id db = Ok (b, db') ->
  Forall2 (approval_step request_id) (ride_requests db) (ride_requests db').
Proof.
  intros Hkey H. apply approve_ride_request_cases in H.
  destruct H as [[_ ->] | [_ [rr [r [Hsel [_ [_ [_ [_ [Hreq _]]]]]]]]]].
  - induction (ride_requests db) as [| x l IH]; constructor; [| exact IH].
    unfold approval_step. auto.
  - apply select_pending_request_sound in Hsel.
    destruct Hsel as [Hrr [_ [Hid [Hst _]]]].
    rewrite Hreq. cbn [update_request_approved ride_requests].
    assert (Hall : forall x, In x (ride_requests db) ->
                     RideRequests.id x = request_id ->
                     RideRequests.status x = Some pending).
    { intros x Hx Hxid.
      assert (x = rr).
      { apply (key_injective RideRequests.id (ride_requests db)); try assumption.
        congruence. }
      subst x. exact Hst. }
    clear Hrr Hkey Hreq.
    generalize dependent (ride_requests db). intros l.
    induction l as [| x l IH]; intros Hall; [constructor |].
    simpl. constructor.
    + destruct (N.eqb (RideRequests.id x) request_id) eqn:E.
      * apply N.eqb_eq in E.
        pose proof (Hall x (or_introl eq_refl) E) as Hx.
        unfold approval_step. cbn. repeat split. right. auto.
      * unfold approval_step. auto.
    + apply IH. intros y Hy. apply Hall. right. exact Hy.
Qed.

(** C8.  Under [approve_ride_request] a join request moves from pending to
    approved and in no other way.  A call for a request that is not
    pending (rejected, approved already, or absent) returns false and
    leaves the database as it is; so does a second call after one that
    approved the request; and a call changes the status of no row but
    that of the pending request it approves. *)
Theorem approve_ride_request_status_machine (db : database) (request_id : uuid) :
  (forall new_id,
     (forall rr, In rr (ride_requests db) -> RideRequests.id rr = request_id ->
                 RideRequests.status rr = Some rejected \/
                 RideRequests.status rr = Some approved) ->
     approve_ride_request new_id request_id db = Ok (false, db)) /\
  (forall new_id new_id' db',
     approve_ride_request new_id request_id db = Ok (true, db') ->
     approve_ride_request new_id' request_id db' = Ok (false, db')) /\
  (forall new_id b db',
     requests_key_ok db ->
     approve_ride_request new_id request_id db = Ok (b, db') ->
     Forall2 (approval_step request_id) (ride_requests db) (ride_requests db')).
Proof.
  split; [| split].
  - intros new_id H. apply approve_not_pending.
    intros rr Hin Hid. destruct (H rr Hin Hid) as [E | E]; rewrite E; discriminate.
  - intros new_id new_id' db' H. apply approve_not_pending.
    intros rr Hin Hid.
    rewrite (approved_after_approval new_id request_id db db' H rr Hin Hid).
    discriminate.
  - intros new_id b db' Hkey H. apply (approve_steps new_id request_id db db' b); assumption.
Qed.

End Approval.


Lemma approve_ride_request_status_machine_witness :
  Supabase.approve_ride_request 900%N 12%N Sample.carpool_db =
    Supabase.Ok (false, Sample.carpool_db) /\
  Supabase.approve_ride_request 901%N 10%N Sample.carpool_db_full =
    Supabase.Ok (false, Sample.carpool_db_full).
Proof.
  split.
  - apply (proj1 (approve_ride_request_status_machine Sample.carpool_db 12%N) 900%N).
    intros rr [H | [H | [H | []]]] Hid; subst rr; try discriminate Hid.
    left. reflexivity.
  - apply (proj1 (proj2 (approve_ride_request_status_machine Sample.carpool_db 10%N))
                 900%N 901%N Sample.carpool_db_full).
    reflexivity.
Defined.

(* ------------------------------------------------------------------ *)
(** ** Ratings: the trigger update_user_rating and calculateUserRating *)

Section Ratings.

Import Supabase RatingSpec.


Lemma sum_scores_bounds (scores : list Z) :
  (forall v, In v scores -> (1 <= v <= 5)%Z) ->
  inject_Z (Z.of_nat (List.length scores)) <= fold_right Qplus 0 (map inject_Z scores) /\
  fold_right Qplus 0 (map inject_Z scores) <= 5 * inject_Z (Z.of_nat (List.length scores)).
Proof.
  induction scores as [| v l IH]; intros H.
  - cbn. split; unfold Qle; simpl; lia.
  - destruct IH as [IH1 IH2]; [intros w Hw; apply H; right; exact Hw |].
    destruct (H v (or_introl eq_refl)) as [Hv1 Hv5].
    cbn [List.length map fold_right]. rewrite Nat2Z.inj_succ. unfold Z.succ.
    rewrite inject_Z_plus. change (inject_Z 1) with 1.
    assert (H1 : 1 <= inject_Z v) by (rewrite Zle_Qle in Hv1; exact Hv1).
    assert (H5 : inject_Z v <= 5) by (rewrite Zle_Qle in Hv5; exact Hv5).
    split; lra.
Qed.


Lemma in_updated_users (f : Users.row -> Users.row) (key : uuid)
    (l : list Users.row) (u : Users.row) :
  (forall x, Users.id (f x) = Users.id x) ->
  In u (map (fun x => if N.eqb (Users.id x) key then f x else x) l) ->
  Users.id u = key ->
  exists x, In x l /\ u = f x.
Proof.
  intros Hf Hin Hid. apply in_map_iff in Hin. destruct Hin as [x [Hx Hinx]].
  exists x. split; [exact Hinx |].
  destruct (N.eqb (Users.id x) key) eqn:E; [symmetry; exact Hx |].
  subst u. apply N.eqb_neq in E. contradiction.
Qed.

(** What the trigger leaves in the row of the rated user. *)
Lemma update_user_rating_spec (NEW : Ratings.row) (db db' : database) :
  update_user_rating NEW db = Ok db' ->
  ratings db' = ratings db /\
  forall u, In u (users db') -> Users.id u = Ratings.rated_user_id NEW ->
    exists q stored,
      to_decimal_3_2
        (COALESCE (AVG (map inject_Z (scores_of db (Ratings.rated_user_id NEW)))) 0)
        = Ok stored /\
      q = stored /\
      Users.rating u = Some q /\
      Users.total_ratings u =
        Some (Z.of_nat (List.length (scores_of db (Ratings.rated_user_id NEW)))).
Proof.
  unfold update_user_rating, scores_of. rewrite map_map.
  destruct (existsb _ (users db)) eqn:Hex.
  - destruct (to_decimal_3_2 _) as [stored | e] eqn:Hdec; [| discriminate].
    intros H. injection H as <-. cbn [ratings users]. split; [reflexivity |].
    intros u Hin Hid.
    apply (in_updated_users
             (fun x => {| Users.id := Users.id x; Users.rating := Some stored;
                          Users.total_ratings := _ |})) in Hin;
      [| reflexivity | exact Hid].
    destruct Hin as [x [_ ->]]. exists stored, stored.
    split; [reflexivity |]. split; [reflexivity |]. split; [reflexivity |].
    cbn. unfold COUNT. rewrite length_map. reflexivity.
  - intros H. injection H as <-. split; [reflexivity |].
    intros u Hin Hid. exfalso.
    assert (Htrue : existsb (fun u0 => N.eqb (Users.id u0) (Ratings.rated_user_id NEW))
                            (users db) = true).
    { apply existsb_exists. exists u. split; [exact Hin | apply N.eqb_eq; exact Hid]. }
    rewrite Htrue in Hex. discriminate Hex.
Qed.

Lemma AVG_mean (values : list Q) : values <> [] -> AVG values = Some (mean values).
Proof. destruct values; [congruence | reflexivity]. Qed.

Lemma scores_of_inserted (NEW : Ratings.row) (db db1 : database) :
  ratings db1 = ratings db ++ [NEW] ->
  scores_of db1 (Ratings.rated_user_id NEW) =
  scores_of db (Ratings.rated_user_id NEW) ++ [Ratings.score NEW].
Proof.
  intros H. unfold scores_of. rewrite H, filter_app, map_app.
  simpl. rewrite N.eqb_refl. reflexivity.
Qed.




Import Storage.

(** The total of the scores, as [calculateUserRating] adds them up. *)
Lemma totalScore_finite (l : list Rating.t) (scores : list Q) (acc : Q) :
  map Rating.score l = map Num scores ->
  exists t,
    fold_left (fun sum rating => add sum (Rating.score rating)) l (Num acc) = Num t /\
    t == acc + fold_right Qplus 0 scores.
Proof.
  revert scores acc. induction l as [| r l IH]; intros scores acc H.
  - destruct scores; [| discriminate H]. exists acc. split; [reflexivity | simpl; lra].
  - destruct scores as [| s scores]; [discriminate H |].
    simpl in H. injection H as Hs Hl.
    simpl fold_left. rewrite Hs. cbn [add].
    destruct (IH scores (acc + s) Hl) as [t [Ht Heq]].
    exists t. split; [exact Ht |]. rewrite Heq. simpl. lra.
Qed.

(** [calculateUserRating] rounds the mean to one decimal place. *)
Lemma calculateUserRating_spec (userId : string) (ls : LocalStorage) (scores : list Q) :
  scores <> [] ->
  map Rating.score (ratingsStorage.getUserRatings userId ls) = map Num scores ->
  exists q,
    ratingsStorage.calculateUserRating userId ls = Num q /\
    rounded_to (1 # 10) q (mean scores).
Proof.
  intros Hne Hscores. unfold ratingsStorage.calculateUserRating.
  set (l := ratingsStorage.getUserRatings userId ls) in *.
  assert (Hlen : List.length l = List.length scores).
  { rewrite <- (length_map Rating.score l), Hscores. apply length_map. }
  assert (Hpos : (0 < List.length l)%nat).
  { rewrite Hlen. destruct scores; [congruence | simpl; lia]. }
  destruct (Nat.eqb_spec (List.length l) 0) as [E | _]; [lia |].
  destruct (totalScore_finite l scores 0 Hscores) as [t [Ht Heq]].
  rewrite Ht, (div_of_nat t _ Hpos). cbn [mul Math_round].
  rewrite div_finite by (unfold Qeq; simpl; lia).
  eexists. split; [reflexivity |].
  unfold mean. rewrite <- Hlen.
  set (n := inject_Z (Z.of_nat (List.length l))).
  assert (Hm : t / n == fold_right Qplus 0 scores / n).
  { rewrite Heq. unfold Qdiv. ring. }
  unfold rounded_to. split.
  - eexists. unfold Qdiv at 1. change (/ 10) with (1 # 10). reflexivity.
  - rewrite <- Hm. set (m := t / n).
    destruct (round_bounds (m * 10)) as [Hlo Hhi].
    set (f := inject_Z (Qfloor (m * 10 + (1 # 2)))) in *.
    unfold Qdiv. change (/ 10) with (1 # 10). change (/ 2) with (1 # 2).
    apply Qabs_Qle_condition. split; lra.
Qed.


End Ratings.



(* ================================================================== *)
(** * Further properties *)

(** ** costCalculator.ts *)

Section CostCalculatorMore.

Import CostCalculator.

(** X1.  In every breakdown returned by [calculateRideCost] the shares are
    those of the passengers, one each and in the order of [passengerIds];
    every share is of the [costPerSeat] of the breakdown, and
    [numberOfPassengers] is their number. *)
Theorem calculateRideCost_shares (params : CostCalculationParams) :
  exists b,
    calculateRideCost params = Normal b /\
    cb_totalCost b = totalCost params /\
    map userId (passengerShares b) = passengerIds params /\
    numberOfPassengers b = List.length (passengerIds params) /\
    Forall (fun sh => amount sh = costPerSeat b) (passengerShares b).
Proof.
  destruct params as [total driver ids incl].
  unfold calculateRideCost. cbn [totalCost passengerIds includeDriverInSplit].
  destruct ids as [| u ids].
  - eexists. split; [reflexivity |]. cbn. repeat split. constructor.
  - cbn [List.length Nat.eqb].
    destruct (dflt incl false); (eexists; split; [reflexivity |]);
      cbn [cb_totalCost passengerShares numberOfPassengers costPerSeat];
      (split; [reflexivity |]); (split; [rewrite map_map; apply map_id |]);
      (split; [reflexivity |]);
      apply Forall_forall; intros sh Hin; apply in_map_iff in Hin;
      destruct Hin as [x [<- _]]; reflexivity.
Qed.



(** The value of [calculateTimeBasedCost] on finite arguments. *)
Lemma calculateTimeBasedCost_finite (t r : Q) (orate : option number) :
  dflt orate (Num 10) = Num r ->
  calculateTimeBasedCost (Num t) orate =
  Normal (Num (inject_Z (Qfloor (t / 60 * r * 100 + (1 # 2))) / 100)).
Proof.
  intros Hr. unfold calculateTimeBasedCost. rewrite Hr. reflexivity.
Qed.

Lemma cents_monotone (y1 y2 : Q) :
  y1 <= y2 ->
  inject_Z (Qfloor (y1 * 100 + (1 # 2))) / 100 <=
  inject_Z (Qfloor (y2 * 100 + (1 # 2))) / 100.
Proof.
  intros H.
  assert (Hm : inject_Z (Qfloor (y1 * 100 + (1 # 2))) <=
               inject_Z (Qfloor (y2 * 100 + (1 # 2)))).
  { apply round_monotone. lra. }
  set (f1 := inject_Z (Qfloor (y1 * 100 + (1 # 2)))) in *.
  set (f2 := inject_Z (Qfloor (y2 * 100 + (1 # 2)))) in *.
  unfold Qdiv. change (/ 100) with (1 # 100). lra.
Qed.

Lemma cents_of_zero (y : Q) :
  y == 0 -> inject_Z (Qfloor (y * 100 + (1 # 2))) / 100 == 0.
Proof.
  intros H.
  assert (H0 : y * 100 + (1 # 2) == 1 # 2) by (rewrite H; reflexivity).
  rewrite (Qfloor_comp _ _ H0). reflexivity.
Qed.


(** X3.  For a finite hourly rate that is not negative,
    [calculateTimeBasedCost] charges nothing for a duration of 0 and never
    less for a longer duration. *)
Theorem calculateTimeBasedCost_zero_and_monotone (orate : option number) (r : Q) :
  dflt orate (Num 10) = Num r ->
  0 <= r ->
  (exists v, calculateTimeBasedCost (Num 0) orate = Normal v /\
             strict_eq v (Num 0) = true) /\
  (forall t1 t2 : Q, t1 <= t2 ->
     exists v1 v2,
       calculateTimeBasedCost (Num t1) orate = Normal v1 /\
       calculateTimeBasedCost (Num t2) orate = Normal v2 /\
       le v1 v2 = true).
Proof.
  intros Hr Hpos. split.
  - eexists. split; [apply (calculateTimeBasedCost_finite 0 r orate Hr) |].
    unfold strict_eq. apply Qeq_bool_iff.
    apply (cents_of_zero (0 / 60 * r)). unfold Qdiv. ring.
  - intros t1 t2 Ht. do 2 eexists.
    split; [apply (calculateTimeBasedCost_finite t1 r orate Hr) |].
    split; [apply (calculateTimeBasedCost_finite t2 r orate Hr) |].
    unfold le. apply Qle_bool_iff.
    apply (cents_monotone (t1 / 60 * r) (t2 / 60 * r)).
    unfold Qdiv. change (/ 60) with (1 # 60). nra.
Qed.

Lemma calculateTimeBasedCost_zero_and_monotone_witness :
  exists v1 v2,
    calculateTimeBasedCost (Num 30) None = Normal v1 /\
    calculateTimeBasedCost (Num 45) None = Normal v2 /\
    le v1 v2 = true.
Proof.
  assert (H0 : 0 <= 10) by (unfold Qle; simpl; lia).
  apply (proj2 (calculateTimeBasedCost_zero_and_monotone None 10 eq_refl H0)).
  unfold Qle; simpl; lia.
Defined.



(** The total cost that [calculateSuggestedPrice] divides among the seats:
    the rounded distance and time costs, with the profit margin. *)
Lemma calculateSuggestedPrice_total
    (options : option PriceOptions) (d t e p w tv m : Q) (numberOfSeats : number) :
  dflt (fuelEfficiency (dflt options noOptions)) (Num 12) = Num e ->
  dflt (fuelPrice (dflt options noOptions)) (Num (3 # 2)) = Num p ->
  dflt (wearAndTearRate (dflt options noOptions)) (Num (15 # 100)) = Num w ->
  dflt (timeValue (dflt options noOptions)) (Num 8) = Num tv ->
  dflt (profitMargin (dflt options noOptions)) (Num (1 # 10)) = Num m ->
  ~ e == 0 ->
  calculateSuggestedPrice (Num d) (Num t) numberOfSeats options =
  Normal
    (div (Math_round
            (mul (div (Num ((inject_Z (Qfloor ((d / e * p + d * w) * 100 + (1 # 2))) / 100 +
                             inject_Z (Qfloor (t / 60 * tv * 100 + (1 # 2))) / 100) *
                            (1 + m)))
                      numberOfSeats)
                 (Num 100)))
         (Num 100)).
Proof.
  intros He Hp Hw Htv Hm Hnz. unfold calculateSuggestedPrice.
  rewrite He, Hp, Hw, Htv, Hm.
  rewrite (calculateDistanceBasedCost_finite (Some (Num e)) (Some (Num p)) (Some (Num w))
             d e p w eq_refl eq_refl eq_refl Hnz).
  cbn [call].
  rewrite (calculateTimeBasedCost_finite t tv (Some (Num tv)) eq_refl).
  reflexivity.
Qed.



(** X6.  [calculateSuggestedPrice] does not guard against a number of
    seats of 0: for finite arguments and a non-zero fuel efficiency the
    suggested price is then never a finite number, it is Infinity,
    -Infinity or NaN. *)
Theorem calculateSuggestedPrice_no_seats
    (options : option PriceOptions) (d t e p w tv m : Q) :
  dflt (fuelEfficiency (dflt options noOptions)) (Num 12) = Num e ->
  dflt (fuelPrice (dflt options noOptions)) (Num (3 # 2)) = Num p ->
  dflt (wearAndTearRate (dflt options noOptions)) (Num (15 # 100)) = Num w ->
  dflt (timeValue (dflt options noOptions)) (Num 8) = Num tv ->
  dflt (profitMargin (dflt options noOptions)) (Num (1 # 10)) = Num m ->
  ~ e == 0 ->
  exists v,
    calculateSuggestedPrice (Num d) (Num t) (Num 0) options = Normal v /\
    (v = PosInfinity \/ v = NegInfinity \/ v = NaN).
Proof.
  intros He Hp Hw Htv Hm Hnz.
  rewrite (calculateSuggestedPrice_total options d t e p w tv m _ He Hp Hw Htv Hm Hnz).
  eexists. split; [reflexivity |].
  set (total := (_ + _) * (1 + m)).
  change (div (Num total) (Num 0)) with (signed_inf (sgn total)).
  destruct (sgn total); vm_compute; auto.
Qed.

Lemma calculateSuggestedPrice_no_seats_witness :
  exists v,
    calculateSuggestedPrice (Num 120) (Num 90) (Num 0) None = Normal v /\
    (v = PosInfinity \/ v = NegInfinity \/ v = NaN).
Proof.
  apply (calculateSuggestedPrice_no_seats None 120 90 12 (3 # 2) (15 # 100) 8 (1 # 10));
    try reflexivity.
  unfold Qeq; simpl; lia.
Defined.

End CostCalculatorMore.

(* ------------------------------------------------------------------ *)
(** ** storage.ts: rides and join requests *)

Section StorageMore.

Import Storage.

Lemma filter_all_true {A : Type} (p : A -> bool) (l : list A) :
  (forall a, In a l -> p a = true) -> filter p l = l.
Proof.
  induction l as [| a l IH]; intros H; [reflexivity |].
  simpl. rewrite (H a (or_introl eq_refl)). f_equal. apply IH.
  intros b Hb. apply H. right. exact Hb.
Qed.

(** X7.  [removeRide] takes out every ride of the given identifier and
    keeps the others; removing a ride just added under an identifier that
    no stored ride had gives back the storage as it was. *)
Theorem removeRide_addRide (ride : Ride.t) (ls : LocalStorage) :
  (forall r, In r (RIDES ls) -> Ride.id r <> Ride.id ride) ->
  ridesStorage.removeRide (Ride.id ride) (ridesStorage.addRide ride ls) = ls /\
  (forall rideId r,
     In r (RIDES (ridesStorage.removeRide rideId (ridesStorage.addRide ride ls))) <->
     In r (RIDES ls ++ [ride]) /\ Ride.id r <> rideId).
Proof.
  intros Hfresh. split.
  - destruct ls as [u rides ratings notes reqs].
    unfold ridesStorage.removeRide, ridesStorage.addRide, ridesStorage.setRides,
      ridesStorage.getRides. cbn in *.
    f_equal. rewrite filter_app. simpl. rewrite String.eqb_refl. simpl.
    rewrite app_nil_r. apply filter_all_true.
    intros r Hr. apply negb_true_iff. apply String.eqb_neq. apply Hfresh. exact Hr.
  - intros rideId r.
    unfold ridesStorage.removeRide, ridesStorage.addRide, ridesStorage.setRides,
      ridesStorage.getRides. cbn [RIDES].
    rewrite filter_In, negb_true_iff, String.eqb_neq. reflexivity.
Qed.

Lemma removeRide_addRide_witness :
  ridesStorage.removeRide "ride-3"
    (ridesStorage.addRide
       {| Ride.id := "ride-3"; Ride.driverId := "u9"; Ride.type := offer;
          Ride.fromLocation := Sample.campus; Ride.toLocation := Sample.downtown;
          Ride.departureTime := 1700000000000%Z;
          Ride.availableSeats := Num 2; Ride.costPerSeat := Num 5;
          Ride.description := ""; Ride.status := active;
          Ride.preferences := Sample.anyone; Ride.passengers := [] |}
       Sample.demo_storage) = Sample.demo_storage.
Proof.
  refine (proj1 (removeRide_addRide
                   {| Ride.id := "ride-3"; Ride.driverId := "u9"; Ride.type := offer;
                      Ride.fromLocation := Sample.campus;
                      Ride.toLocation := Sample.downtown;
                      Ride.departureTime := 1700000000000%Z;
                      Ride.availableSeats := Num 2; Ride.costPerSeat := Num 5;
                      Ride.description := ""; Ride.status := active;
                      Ride.preferences := Sample.anyone; Ride.passengers := [] |}
                   Sample.demo_storage _)).
  intros r [H | [H | []]]; subst r; discriminate.
Defined.

Lemma findIndex_none {A : Type} (p : A -> bool) (l : list A) :
  (forall a, In a l -> p a = false) -> findIndex p l = None.
Proof.
  induction l as [| a l IH]; intros H; [reflexivity |].
  simpl. rewrite (H a (or_introl eq_refl)).
  rewrite IH; [reflexivity |]. intros b Hb. apply H. right. exact Hb.
Qed.

Lemma findIndex_first {A : Type} (p : A -> bool) (l1 l2 : list A) (x : A) :
  (forall a, In a l1 -> p a = false) -> p x = true ->
  findIndex p (l1 ++ x :: l2) = Some (List.length l1).
Proof.
  induction l1 as [| a l1 IH]; intros H Hx.
  - simpl. rewrite Hx. reflexivity.
  - simpl. rewrite (H a (or_introl eq_refl)).
    rewrite IH; [reflexivity | | exact Hx]. intros b Hb. apply H. right. exact Hb.
Qed.

Lemma assign_middle {A : Type} (l1 l2 : list A) (x v : A) :
  assign (l1 ++ x :: l2) (List.length l1) v = l1 ++ v :: l2.
Proof.
  induction l1 as [| a l1 IH]; [reflexivity |]. simpl. rewrite IH. reflexivity.
Qed.

Lemma nth_error_middle {A : Type} (l1 l2 : list A) (x : A) :
  nth_error (l1 ++ x :: l2) (List.length l1) = Some x.
Proof.
  induction l1 as [| a l1 IH]; [reflexivity |]. simpl. exact IH.
Qed.

(** A list splits at the first element that satisfies a test. *)
Lemma split_at_first {A : Type} (p : A -> bool) (l : list A) :
  (forall a, In a l -> p a = false) \/
  (exists l1 x l2, l = l1 ++ x :: l2 /\ (forall a, In a l1 -> p a = false) /\ p x = true).
Proof.
  induction l as [| a l IH].
  - left. intros a [].
  - destruct (p a) eqn:Ha.
    + right. exists [], a, l. split; [reflexivity |]. split; [intros b [] | exact Ha].
    + destruct IH as [IH | [l1 [x [l2 [-> [H1 Hx]]]]]].
      * left. intros b [<- | Hb]; [exact Ha | apply IH; exact Hb].
      * right. exists (a :: l1), x, l2. split; [reflexivity |].
        split; [| exact Hx]. intros b [<- | Hb]; [exact Ha | apply H1; exact Hb].
Qed.

(** What [updateRequest] does to the stored requests. *)
Lemma updateRequest_requests
    (now : Date) (requestId : string) (updates : PartialRideRequest.t)
    (ls : LocalStorage) (l1 l2 : list RideRequest.t) (r0 : RideRequest.t) :
  RIDE_REQUESTS ls = l1 ++ r0 :: l2 ->
  (forall r, In r l1 -> RideRequest.id r <> requestId) ->
  RideRequest.id r0 = requestId ->
  RIDE_REQUESTS (rideRequestsStorage.updateRequest now requestId updates ls) =
  l1 ++ rideRequestsStorage.spread r0 updates now :: l2.
Proof.
  intros Hreq H1 H0.
  unfold rideRequestsStorage.updateRequest, rideRequestsStorage.getRequests.
  rewrite Hreq.
  rewrite (findIndex_first _ l1 l2 r0).
  - rewrite nth_error_middle, assign_middle. reflexivity.
  - intros r Hr. apply String.eqb_neq. apply H1. exact Hr.
  - apply String.eqb_eq. exact H0.
Qed.

(** X8.  [updateRequest] for an identifier that no stored request has
    leaves the storage as it is.  Otherwise it rewrites the first request
    of that identifier, with the fields of the update in place of its own
    and the given time as [updatedAt], and no other request; the number of
    stored requests never changes. *)
Theorem updateRequest_spec
    (now : Date) (requestId : string) (updates : PartialRideRequest.t)
    (ls : LocalStorage) :
  ((forall r, In r (RIDE_REQUESTS ls) -> RideRequest.id r <> requestId) ->
   rideRequestsStorage.updateRequest now requestId updates ls = ls) /\
  (forall l1 r0 l2,
     RIDE_REQUESTS ls = l1 ++ r0 :: l2 ->
     (forall r, In r l1 -> RideRequest.id r <> requestId) ->
     RideRequest.id r0 = requestId ->
     RIDE_REQUESTS (rideRequestsStorage.updateRequest now requestId updates ls) =
     l1 ++ rideRequestsStorage.spread r0 updates now :: l2) /\
  List.length (RIDE_REQUESTS (rideRequestsStorage.updateRequest now requestId updates ls)) =
  List.length (RIDE_REQUESTS ls).
Proof.
  split; [| split].
  - intros H. unfold rideRequestsStorage.updateRequest, rideRequestsStorage.getRequests.
    rewrite findIndex_none; [reflexivity |].
    intros r Hr. apply String.eqb_neq. apply H. exact Hr.
  - intros l1 r0 l2. apply updateRequest_requests.
  - destruct (split_at_first (fun r => String.eqb (RideRequest.id r) requestId)
                (RIDE_REQUESTS ls)) as [H | [l1 [x [l2 [Heq [H1 Hx]]]]]].
    + unfold rideRequestsStorage.updateRequest, rideRequestsStorage.getRequests.
      rewrite findIndex_none; [reflexivity | exact H].
    + rewrite (updateRequest_requests now requestId updates ls l1 l2 x Heq).
      * rewrite Heq, !length_app. reflexivity.
      * intros r Hr. apply String.eqb_neq. apply H1. exact Hr.
      * apply String.eqb_eq. exact Hx.
Qed.

Import SearchRides SearchSpec StorageSpec.

Lemma hasRequested_false (userId rideId : string) (ls : LocalStorage) :
  (forall req, In req (RIDE_REQUESTS ls) -> ~ pendingRequest userId rideId req) ->
  some (fun req =>
          String.eqb (RideRequest.rideId req) rideId &&
          RequestStatus_eqb (RideRequest.status req) pending)
       (rideRequestsStorage.getUserRequests userId ls) = false.
Proof.
  intros H. unfold some.
  destruct (existsb _ _) eqn:E; [| reflexivity].
  apply existsb_exists in E. destruct E as [req [Hin Hp]].
  unfold rideRequestsStorage.getUserRequests, rideRequestsStorage.getRequests in Hin.
  apply filter_In in Hin. destruct Hin as [Hin Hu].
  apply andb_prop in Hp. destruct Hp as [Hr Hs].
  exfalso. apply (H req Hin). unfold pendingRequest.
  apply String.eqb_eq in Hu, Hr.
  repeat split; try assumption.
  destruct (RideRequest.status req); (reflexivity || discriminate Hs).
Qed.

(** The storage after a call of [handleJoinRide] that passes its checks. *)
Lemma handleJoinRide_success
    (fresh : Fresh) (rideId : string) (c : Component) (ls : LocalStorage)
    (u : User.t) (ride : Ride.t) :
  user c = Some u ->
  find (fun r => String.eqb (Ride.id r) rideId) (rides c) = Some ride ->
  le (Ride.availableSeats ride) (Num 0) = false ->
  (forall req, In req (RIDE_REQUESTS ls) -> ~ pendingRequest (User.id u) rideId req) ->
  exists req note,
    handleJoinRide fresh rideId (c, ls) =
      (setFilteredRides
         (filter (fun r => negb (String.eqb (Ride.id r) rideId)) (filteredRides c))
         (setMessage "Ride request sent! The driver will be notified." c),
       {| USER := USER ls; RIDES := RIDES ls; RATINGS := RATINGS ls;
          NOTIFICATIONS := note :: NOTIFICATIONS ls;
          RIDE_REQUESTS := RIDE_REQUESTS ls ++ [req] |}) /\
    RideRequest.id req = requestId fresh /\
    RideRequest.passengerId req = User.id u /\
    RideRequest.rideId req = rideId /\
    RideRequest.status req = pending /\
    RideRequest.requestedSeats req = Num 1 /\
    Notification.userId note = Ride.driverId ride /\
    Notification.type note = ride_request /\
    Notification.isRead note = false.
Proof.
  intros Hu Hfind Hseats Hnone.
  unfold handleJoinRide.
  rewrite Hu, Hfind, Hseats, (hasRequested_false (User.id u) rideId ls Hnone).
  do 2 eexists. split; [reflexivity |]. repeat split.
Qed.

(** X9.  Only a pending request blocks a new one.  After a join request
    has been created and its status set to rejected with [updateRequest],
    the same user can ask to join the same ride again: the call stores a
    second request beside the rejected one. *)
Theorem join_again_after_rejection
    (fresh fresh' : Fresh) (now : Date) (rideId : string)
    (c : Component) (ls : LocalStorage) (u : User.t) (ride : Ride.t) :
  user c = Some u ->
  find (fun r => String.eqb (Ride.id r) rideId) (rides c) = Some ride ->
  le (Ride.availableSeats ride) (Num 0) = false ->
  (forall req, In req (RIDE_REQUESTS ls) ->
     RideRequest.id req <> requestId fresh /\
     ~ pendingRequest (User.id u) rideId req) ->
  exists first_request second_request,
    RIDE_REQUESTS
      (snd (handleJoinRide fresh' rideId
              (fst (handleJoinRide fresh rideId (c, ls)),
               rideRequestsStorage.updateRequest now (requestId fresh)
                 (onlyStatus rejected)
                 (snd (handleJoinRide fresh rideId (c, ls)))))) =
    RIDE_REQUESTS ls ++ [first_request; second_request] /\
    RideRequest.status first_request = rejected /\
    RideRequest.status second_request = pending /\
    RideRequest.passengerId first_request = User.id u /\
    RideRequest.passengerId second_request = User.id u /\
    RideRequest.rideId first_request = rideId /\
    RideRequest.rideId second_request = rideId.
Proof.
  intros Hu Hfind Hseats Hold.
  destruct (handleJoinRide_success fresh rideId c ls u ride Hu Hfind Hseats)
    as [req [note [Hw [Hid [Hp [Hr [Hs [_ _]]]]]]]];
    [intros r Hr; apply (Hold r Hr) |].
  rewrite Hw. cbn [fst snd].
  set (ls1 := {| USER := USER ls; RIDES := RIDES ls; RATINGS := RATINGS ls;
                 NOTIFICATIONS := note :: NOTIFICATIONS ls;
                 RIDE_REQUESTS := RIDE_REQUESTS ls ++ [req] |}).
  assert (Hupd : RIDE_REQUESTS
                   (rideRequestsStorage.updateRequest now (requestId fresh)
                      (onlyStatus rejected) ls1) =
                 RIDE_REQUESTS ls ++
                 [rideRequestsStorage.spread req (onlyStatus rejected) now]).
  { apply (updateRequest_requests now (requestId fresh) (onlyStatus rejected) ls1
             (RIDE_REQUESTS ls) [] req).
    - reflexivity.
    - intros r Hin. apply (Hold r Hin).
    - exact Hid. }
  set (ls2 := rideRequestsStorage.updateRequest now (requestId fresh)
                (onlyStatus rejected) ls1) in *.
  set (c1 := setFilteredRides _ _).
  destruct (handleJoinRide_success fresh' rideId c1 ls2 u ride)
    as [req2 [note2 [Hw2 [_ [Hp2 [Hr2 [Hs2 _]]]]]]]; try assumption.
  { intros r Hin. rewrite Hupd in Hin. apply in_app_or in Hin.
    destruct Hin as [Hin | [<- | []]].
    - apply (Hold r Hin).
    - intros [_ [_ Hst]]. discriminate Hst. }
  rewrite Hw2. cbn [snd RIDE_REQUESTS]. rewrite Hupd, <- app_assoc.
  do 2 eexists. split; [reflexivity |].
  cbn. repeat split; assumption.
Qed.

End StorageMore.

Lemma updateRequest_spec_witness :
  exists r0,
    Storage.RIDE_REQUESTS Sample.storage_after_request = [r0] /\
    Storage.RIDE_REQUESTS
      (Storage.rideRequestsStorage.updateRequest 1700000005000%Z "req-1"
         (StorageSpec.onlyStatus rejected) Sample.storage_after_request) =
    [Storage.rideRequestsStorage.spread r0 (StorageSpec.onlyStatus rejected)
       1700000005000%Z].
Proof.
  eexists. split; [reflexivity |].
  apply (proj1 (proj2 (updateRequest_spec 1700000005000%Z "req-1"
                         (StorageSpec.onlyStatus rejected)
                         Sample.storage_after_request)) [] _ []).
  - reflexivity.
  - intros r [].
  - reflexivity.
Defined.

Lemma join_again_after_rejection_witness :
  exists first_request second_request,
    Storage.RIDE_REQUESTS
      (snd (SearchRides.handleJoinRide Sample.second_draw "ride-1"
              (fst (SearchRides.handleJoinRide Sample.first_draw "ride-1"
                      (Sample.loaded_page, Sample.demo_storage)),
               Storage.rideRequestsStorage.updateRequest 1700000005000%Z
                 (SearchRides.requestId Sample.first_draw)
                 (StorageSpec.onlyStatus rejected)
                 (snd (SearchRides.handleJoinRide Sample.first_draw "ride-1"
                         (Sample.loaded_page, Sample.demo_storage)))))) =
    Storage.RIDE_REQUESTS Sample.demo_storage ++ [first_request; second_request] /\
    RideRequest.status first_request = rejected /\
    RideRequest.status second_request = pending /\
    RideRequest.passengerId first_request = User.id Sample.student /\
    RideRequest.passengerId second_request = User.id Sample.student /\
    RideRequest.rideId first_request = "ride-1"%string /\
    RideRequest.rideId second_request = "ride-1"%string.
Proof.
  apply (join_again_after_rejection Sample.first_draw Sample.second_draw
           1700000005000%Z "ride-1" Sample.loaded_page Sample.demo_storage
           Sample.student Sample.ride_two_taken).
  - reflexivity.
  - reflexivity.
  - reflexivity.
  - intros req [].
Defined.

(* ------------------------------------------------------------------ *)
(** ** storage.ts: notifications *)

Section NotificationsMore.

Import Storage StorageSpec.

Section Sorting.

Variable A : Type.
Variable key : A -> Z.

(** The comparison [(a, b) => key(b) - key(a)] sorts by decreasing key. *)
Let compare (a b : A) : Z := (key b - key a)%Z.

Lemma sort_insert_perm (a : A) (l : list A) :
  Permutation (sort_insert compare a l) (a :: l).
Proof.
  induction l as [| b l IH]; [reflexivity |].
  simpl. destruct (compare a b <=? 0)%Z; [reflexivity |].
  rewrite IH. apply perm_swap.
Qed.

Lemma sort_perm (l : list A) : Permutation (sort compare l) l.
Proof.
  induction l as [| a l IH]; [reflexivity |].
  unfold sort in *. simpl. rewrite sort_insert_perm. constructor. exact IH.
Qed.

Lemma sort_insert_sorted (a : A) (l : list A) :
  Sorted (fun x y => (key y <= key x)%Z) l ->
  Sorted (fun x y => (key y <= key x)%Z) (sort_insert compare a l).
Proof.
  induction l as [| b l IH]; intros Hs.
  - repeat constructor.
  - simpl. unfold compare at 1.
    destruct (Z.leb_spec (key b - key a) 0) as [Hle | Hgt].
    + constructor; [exact Hs |]. constructor. lia.
    + inversion Hs as [| ? ? Hs' Hhd]. subst.
      constructor; [apply IH; exact Hs' |].
      destruct l as [| d l].
      * simpl. constructor. lia.
      * simpl. unfold compare at 1.
        destruct (Z.leb_spec (key d - key a) 0).
        -- constructor. lia.
        -- constructor. inversion Hhd. assumption.
Qed.

Lemma sort_sorted (l : list A) :
  StronglySorted (fun x y => (key y <= key x)%Z) (sort compare l).
Proof.
  apply Sorted_StronglySorted.
  - intros x y z Hxy Hyz. lia.
  - induction l as [| a l IH]; [constructor |].
    unfold sort in *. simpl. apply sort_insert_sorted. exact IH.
Qed.

Lemma filter_perm_length (p : A -> bool) (l l' : list A) :
  Permutation l l' -> List.length (filter p l) = List.length (filter p l').
Proof.
  intros H. induction H as [| x l l' _ IH | x y l | l l' l'' _ IH1 _ IH2].
  - reflexivity.
  - simpl. destruct (p x); simpl; rewrite IH; reflexivity.
  - simpl. destruct (p x), (p y); reflexivity.
  - rewrite IH1. exact IH2.
Qed.

End Sorting.

(** The unread count of a user is the number of that user's unread
    notifications in the storage. *)
Lemma getUnreadCount_stored (userId : string) (ls : LocalStorage) :
  notificationsStorage.getUnreadCount userId ls = List.length (unreadOf userId ls).
Proof.
  unfold notificationsStorage.getUnreadCount, notificationsStorage.getUserNotifications,
    notificationsStorage.getNotifications, unreadOf.
  rewrite (filter_perm_length _ _ _ _
             (sort_perm _ Notification.createdAt _)).
  rewrite filter_filter. reflexivity.
Qed.

(** X10.  [getUserNotifications] returns the notifications of the user,
    each as many times as it is stored and no other, from the newest to
    the oldest; and [getUnreadCount] is the number of the user's stored
    notifications that are not read. *)
Theorem getUserNotifications_newest_first (userId : string) (ls : LocalStorage) :
  Permutation (notificationsStorage.getUserNotifications userId ls)
              (filter (fun n => String.eqb (Notification.userId n) userId)
                      (NOTIFICATIONS ls)) /\
  StronglySorted notOlder (notificationsStorage.getUserNotifications userId ls) /\
  notificationsStorage.getUnreadCount userId ls = List.length (unreadOf userId ls).
Proof.
  split; [| split].
  - apply (sort_perm _ Notification.createdAt).
  - apply (sort_sorted _ Notification.createdAt).
  - apply getUnreadCount_stored.
Qed.

Lemma filter_map_length {X Y : Type} (f : X -> Y) (p : Y -> bool) (l : list X) :
  List.length (filter p (map f l)) = List.length (filter (fun x => p (f x)) l).
Proof.
  induction l as [| x l IH]; [reflexivity |].
  simpl. destruct (p (f x)); simpl; rewrite IH; reflexivity.
Qed.

(** X11.  [markAsRead] marks every stored notification of the given
    identifier as read and touches no other: the unread count of a user
    becomes the number of that user's unread notifications of another
    identifier, so it never goes up; and marking twice is marking once. *)
Theorem markAsRead_unread_count (notificationId userId : string) (ls : LocalStorage) :
  notificationsStorage.getUnreadCount userId
    (notificationsStorage.markAsRead notificationId ls) =
  List.length
    (filter (fun n => negb (String.eqb (Notification.id n) notificationId))
            (unreadOf userId ls)) /\
  (notificationsStorage.getUnreadCount userId
     (notificationsStorage.markAsRead notificationId ls) <=
   notificationsStorage.getUnreadCount userId ls)%nat /\
  notificationsStorage.markAsRead notificationId
    (notificationsStorage.markAsRead notificationId ls) =
  notificationsStorage.markAsRead notificationId ls.
Proof.
  assert (Hcount :
    notificationsStorage.getUnreadCount userId
      (notificationsStorage.markAsRead notificationId ls) =
    List.length
      (filter (fun n => negb (String.eqb (Notification.id n) notificationId))
              (unreadOf userId ls))).
  { rewrite getUnreadCount_stored. unfold unreadOf.
    unfold notificationsStorage.markAsRead, notificationsStorage.setNotifications,
      notificationsStorage.getNotifications. cbn [NOTIFICATIONS].
    rewrite filter_map_length, filter_filter.
    f_equal. apply filter_ext. intros n.
    destruct (String.eqb (Notification.id n) notificationId); cbn;
      destruct (String.eqb (Notification.userId n) userId);
      destruct (Notification.isRead n); reflexivity. }
  split; [exact Hcount |]. split.
  - rewrite Hcount, getUnreadCount_stored.
    apply filter_length_le.
  - destruct ls as [u rides ratings notes reqs].
    unfold notificationsStorage.markAsRead, notificationsStorage.setNotifications,
      notificationsStorage.getNotifications. cbn.
    f_equal. rewrite map_map. apply map_ext. intros n.
    destruct (String.eqb (Notification.id n) notificationId) eqn:E; cbn.
    + rewrite E. reflexivity.
    + rewrite E. reflexivity.
Qed.

End NotificationsMore.

(* ------------------------------------------------------------------ *)
(** ** SearchRides.tsx: more on the handlers *)

Section SearchRidesMore.

Import Storage SearchRides SearchSpec StorageSpec.

(** X12.  A join request that is accepted by [handleJoinRide] puts one
    unread notification of type 'ride_request' for the driver at the head
    of the stored notifications: the driver's unread count goes up by
    one and that of every other user stays as it was. *)
Theorem handleJoinRide_notifies_driver
    (fresh : Fresh) (rideId : string) (c : Component) (ls : LocalStorage)
    (u : User.t) (ride : Ride.t) :
  user c = Some u ->
  find (fun r => String.eqb (Ride.id r) rideId) (rides c) = Some ride ->
  le (Ride.availableSeats ride) (Num 0) = false ->
  (forall req, In req (RIDE_REQUESTS ls) -> ~ pendingRequest (User.id u) rideId req) ->
  (exists note,
     NOTIFICATIONS (snd (handleJoinRide fresh rideId (c, ls))) =
       note :: NOTIFICATIONS ls /\
     Notification.userId note = Ride.driverId ride /\
     Notification.type note = ride_request) /\
  notificationsStorage.getUnreadCount (Ride.driverId ride)
    (snd (handleJoinRide fresh rideId (c, ls))) =
  S (notificationsStorage.getUnreadCount (Ride.driverId ride) ls) /\
  (forall other, other <> Ride.driverId ride ->
     notificationsStorage.getUnreadCount other
       (snd (handleJoinRide fresh rideId (c, ls))) =
     notificationsStorage.getUnreadCount other ls).
Proof.
  intros Hu Hfind Hseats Hnone.
  destruct (handleJoinRide_success fresh rideId c ls u ride Hu Hfind Hseats Hnone)
    as [req [note [Hw [_ [_ [_ [_ [_ [Hto [Hty Hunread]]]]]]]]]].
  rewrite Hw. cbn [snd].
  split; [exists note; cbn [NOTIFICATIONS]; auto |].
  split.
  - rewrite !getUnreadCount_stored. unfold unreadOf. cbn [NOTIFICATIONS filter].
    rewrite Hto, Hunread, String.eqb_refl. reflexivity.
  - intros other Hother. rewrite !getUnreadCount_stored. unfold unreadOf.
    cbn [NOTIFICATIONS filter]. rewrite Hto.
    assert (E : String.eqb (Ride.driverId ride) other = false).
    { apply String.eqb_neq. congruence. }
    rewrite E. reflexivity.
Qed.

(** X14.  What a call of [handleJoinRide] may do.  It stores nothing
    unless it ends with the message of success, and then it stores one
    request and one notification; it never changes the rides of the
    page, the user of the page or any stored ride or rating. *)
Theorem handleJoinRide_effects
    (fresh : Fresh) (rideId : string) (c : Component) (ls : LocalStorage) :
  rides (fst (handleJoinRide fresh rideId (c, ls))) = rides c /\
  user (fst (handleJoinRide fresh rideId (c, ls))) = user c /\
  RIDES (snd (handleJoinRide fresh rideId (c, ls))) = RIDES ls /\
  RATINGS (snd (handleJoinRide fresh rideId (c, ls))) = RATINGS ls /\
  (snd (handleJoinRide fresh rideId (c, ls)) = ls \/
   (message (fst (handleJoinRide fresh rideId (c, ls))) =
      "Ride request sent! The driver will be notified."%string /\
    List.length (RIDE_REQUESTS (snd (handleJoinRide fresh rideId (c, ls)))) =
      S (List.length (RIDE_REQUESTS ls)) /\
    List.length (NOTIFICATIONS (snd (handleJoinRide fresh rideId (c, ls)))) =
      S (List.length (NOTIFICATIONS ls)))).
Proof.
  unfold handleJoinRide.
  destruct (user c) as [u |] eqn:Hu; [| cbn; auto 6].
  destruct (find _ (rides c)) as [ride |]; [| cbn; auto 6].
  destruct (le (Ride.availableSeats ride) (Num 0)); [cbn; auto 6 |].
  cbv zeta.
  match goal with
  | |- context [if some ?p ?l then _ else _] => destruct (some p l)
  end; [cbn; auto 6 |].
  cbn. repeat split; try assumption. right. repeat split.
  unfold rideRequestsStorage.getRequests. rewrite length_app. simpl. lia.
Qed.

Lemma handleJoinRide_rides
    (fresh : Fresh) (rideId : string) (c : Component) (ls : LocalStorage) :
  rides (fst (handleJoinRide fresh rideId (c, ls))) = rides c.
Proof.
  unfold handleJoinRide.
  destruct (user c) as [u |]; [| reflexivity].
  destruct (find _ (rides c)) as [ride |]; [| reflexivity].
  destruct (le (Ride.availableSeats ride) (Num 0)); [reflexivity |].
  cbv zeta.
  match goal with
  | |- context [if some ?p ?l then _ else _] => destruct (some p l)
  end; reflexivity.
Qed.

Section Searching.

Variable toDateString : Date -> string.

(** X15.  A search always starts from all the rides of the page, not from
    the result of the search before it, and clearing the search shows all
    of them again.  So the ride that a join request takes out of the
    results is back after the next clearing, and after the next search if
    it passes the criteria. *)
Theorem searches_do_not_compound (page : Component) :
  (forall criteria1 criteria2,
     handleSearch toDateString criteria2 (handleSearch toDateString criteria1 page) =
     handleSearch toDateString criteria2 page) /\
  (forall criteria,
     filteredRides (handleClearSearch (handleSearch toDateString criteria page)) =
     rides page) /\
  (forall fresh rideId ls,
     filteredRides (handleClearSearch (fst (handleJoinRide fresh rideId (page, ls)))) =
     rides page /\
     forall criteria,
       filteredRides
         (handleSearch toDateString criteria (fst (handleJoinRide fresh rideId (page, ls)))) =
       filteredRides (handleSearch toDateString criteria page)).
Proof.
  split; [| split].
  - intros criteria1 criteria2. reflexivity.
  - intros criteria. reflexivity.
  - intros fresh rideId ls. split.
    + unfold handleClearSearch. cbn [filteredRides setFilteredRides].
      apply handleJoinRide_rides.
    + intros criteria. rewrite !handleSearch_filter, handleJoinRide_rides. reflexivity.
Qed.

Lemma toLowerCase_empty (s : string) :
  JSString.truthy (JSString.toLowerCase s) = JSString.truthy s.
Proof. destruct s; reflexivity. Qed.

Lemma truthy_same_case (s1 s2 : string) :
  JSString.toLowerCase s1 = JSString.toLowerCase s2 ->
  JSString.truthy s1 = JSString.truthy s2.
Proof.
  intros H. rewrite <- (toLowerCase_empty s1), <- (toLowerCase_empty s2), H. reflexivity.
Qed.

(** X16.  The city criteria of a search are not sensitive to case: two
    criteria that differ only in the case of the letters of [fromCity] and
    [toCity] give the same result. *)
Theorem handleSearch_case_insensitive
    (from1 from2 to1 to2 : string) (departureDate : option Date)
    (maxCostPerSeat availableSeats : option number) (gender : option Gender)
    (page : Component) :
  JSString.toLowerCase from1 = JSString.toLowerCase from2 ->
  JSString.toLowerCase to1 = JSString.toLowerCase to2 ->
  handleSearch toDateString
    {| SearchCriteria.fromCity := Some from1; SearchCriteria.toCity := Some to1;
       SearchCriteria.departureDate := departureDate;
       SearchCriteria.maxCostPerSeat := maxCostPerSeat;
       SearchCriteria.availableSeats := availableSeats;
       SearchCriteria.genderPreference := gender |} page =
  handleSearch toDateString
    {| SearchCriteria.fromCity := Some from2; SearchCriteria.toCity := Some to2;
       SearchCriteria.departureDate := departureDate;
       SearchCriteria.maxCostPerSeat := maxCostPerSeat;
       SearchCriteria.availableSeats := availableSeats;
       SearchCriteria.genderPreference := gender |} page.
Proof.
  intros Hfrom Hto. unfold handleSearch.
  cbn [SearchCriteria.fromCity SearchCriteria.toCity SearchCriteria.departureDate
       SearchCriteria.maxCostPerSeat SearchCriteria.availableSeats
       SearchCriteria.genderPreference].
  rewrite (truthy_same_case from1 from2 Hfrom), (truthy_same_case to1 to2 Hto).
  rewrite Hfrom, Hto. reflexivity.
Qed.

End Searching.

Lemma initializeDemoData_kept (now : Date) (ls : LocalStorage) :
  RIDES ls <> [] -> initializeDemoData now ls = ls.
Proof.
  intros H. unfold initializeDemoData, ridesStorage.getRides.
  destruct (RIDES ls); [congruence | reflexivity].
Qed.

(** X13.  [initializeDemoData] never touches a storage that holds a ride,
    so running it again changes nothing.  On a storage without rides it
    stores one active offer of 3 seats by "demo-user-1" leaving two hours
    after the current time; the search page of another user then lists
    exactly that ride, and that of "demo-user-1" lists none. *)
Theorem initializeDemoData_once (now : Date) (ls : LocalStorage) :
  (RIDES ls <> [] -> initializeDemoData now ls = ls) /\
  (forall now', initializeDemoData now' (initializeDemoData now ls) =
                initializeDemoData now ls) /\
  (RIDES ls = [] ->
   exists demo,
     RIDES (initializeDemoData now ls) = [demo] /\
     Ride.driverId demo = "demo-user-1"%string /\
     Ride.type demo = offer /\ Ride.status demo = active /\
     Ride.availableSeats demo = Num 3 /\ Ride.passengers demo = [] /\
     Ride.departureTime demo = (now + 7200000)%Z /\
     forall page u,
       USER ls = Some u ->
       rides (useEffect (initializeDemoData now ls) page) =
       if String.eqb (User.id u) "demo-user-1" then [] else [demo]).
Proof.
  split; [apply initializeDemoData_kept |]. split.
  - intros now'. apply initializeDemoData_kept.
    unfold initializeDemoData, ridesStorage.getRides.
    destruct (RIDES ls) eqn:E; cbn [List.length Nat.eqb].
    + unfold ridesStorage.setRides. cbn [RIDES]. discriminate.
    + rewrite E. discriminate.
  - intros Hempty. unfold initializeDemoData, ridesStorage.getRides.
    rewrite Hempty. cbn [List.length Nat.eqb].
    eexists. split; [reflexivity |].
    repeat (split; [reflexivity |]).
    intros page u Hu. unfold useEffect, getCurrentUser, userStorage.getUser,
      ridesStorage.getRides, ridesStorage.setRides.
    cbn [USER RIDES rides]. rewrite Hu. cbn [filter].
    cbn [Ride.status Ride.type Ride.driverId Ride.passengers RideStatus_eqb
         RideType_eqb array_includes existsb andb negb].
    rewrite String.eqb_sym.
    destruct (String.eqb (User.id u) "demo-user-1"); reflexivity.
Qed.

End SearchRidesMore.

Lemma handleJoinRide_notifies_driver_witness :
  Storage.notificationsStorage.getUnreadCount (Ride.driverId Sample.ride_two_taken)
    (snd (SearchRides.handleJoinRide Sample.first_draw "ride-1"
            (Sample.loaded_page, Sample.demo_storage))) =
  S (Storage.notificationsStorage.getUnreadCount (Ride.driverId Sample.ride_two_taken)
       Sample.demo_storage).
Proof.
  apply (handleJoinRide_notifies_driver Sample.first_draw "ride-1" Sample.loaded_page
           Sample.demo_storage Sample.student Sample.ride_two_taken).
  - reflexivity.
  - reflexivity.
  - reflexivity.
  - intros req [].
Defined.

Lemma handleSearch_case_insensitive_witness :
  SearchRides.handleSearch (fun _ => EmptyString)
    {| SearchCriteria.fromCity := Some "AUSTIN"%string;
       SearchCriteria.toCity := Some "Dallas"%string;
       SearchCriteria.departureDate := None; SearchCriteria.maxCostPerSeat := None;
       SearchCriteria.availableSeats := None;
       SearchCriteria.genderPreference := None |} Sample.loaded_page =
  SearchRides.handleSearch (fun _ => EmptyString)
    {| SearchCriteria.fromCity := Some "austin"%string;
       SearchCriteria.toCity := Some "DALLAS"%string;
       SearchCriteria.departureDate := None; SearchCriteria.maxCostPerSeat := None;
       SearchCriteria.availableSeats := None;
       SearchCriteria.genderPreference := None |} Sample.loaded_page.
Proof.
  apply (handleSearch_case_insensitive (fun _ => EmptyString)); reflexivity.
Defined.

Lemma initializeDemoData_once_witness :
  exists demo,
    Storage.RIDES (Storage.initializeDemoData 1700000000000%Z Sample.rated_storage) =
      [demo] /\
    Ride.availableSeats demo = Num 3 /\
    SearchRides.rides
      (SearchRides.useEffect
         (Storage.initializeDemoData 1700000000000%Z Sample.rated_storage)
         Sample.blank_page) = [demo].
Proof.
  destruct (proj2 (proj2 (initializeDemoData_once 1700000000000%Z Sample.rated_storage))
              eq_refl)
    as [demo [Hrides [_ [_ [_ [Hseats [_ [_ Hpage]]]]]]]].
  exists demo. split; [exact Hrides |]. split; [exact Hseats |].
  exact (Hpage Sample.blank_page Sample.student eq_refl).
Defined.

(* ------------------------------------------------------------------ *)
(** ** supabase-functions.sql: more on approve_ride_request *)

Section ApprovalMore.

Import Supabase ApprovalSpec.

(** A pending request for which the ride has room and whose passenger is
    not on the ride is approved. *)
Lemma approve_success_core
    (new_id request_id : uuid) (db : database)
    (rr : RideRequests.row) (r : Rides.row) (n : Z) :
  rides_key_ok db -> requests_key_ok db ->
  In rr (ride_requests db) -> In r (rides db) ->
  RideRequests.id rr = request_id ->
  RideRequests.status rr = Some pending ->
  RideRequests.ride_id rr = Rides.id r ->
  RideRequests.requested_seats rr = Some n ->
  (n <= Rides.available_seats r - passenger_count db (Rides.id r))%Z ->
  (forall rp, In rp (ride_passengers db) ->
     ~ (RidePassengers.ride_id rp = Rides.id r /\
        RidePassengers.passenger_id rp = RideRequests.passenger_id rr)) ->
  exists db' note,
    approve_ride_request new_id request_id db = Ok (true, db') /\
    users db' = users db /\ rides db' = rides db /\ ratings db' = ratings db /\
    ride_passengers db' =
      ride_passengers db ++
      [ {| RidePassengers.ride_id := Rides.id r;
           RidePassengers.passenger_id := RideRequests.passenger_id rr |} ] /\
    passenger_count db' (Rides.id r) = (passenger_count db (Rides.id r) + 1)%Z /\
    notifications db' = notifications db ++ [note] /\
    Notifications.user_id note = RideRequests.passenger_id rr /\
    Notifications.type note = ride_approved /\
    (forall rr', In rr' (ride_requests db') -> RideRequests.id rr' = request_id ->
                 RideRequests.status rr' = Some approved).
Proof.
  intros Hkr Hkq Hrr Hr Hid Hst Hride Hn Hle Hnew.
  assert (Hdup : existsb (fun rp =>
                    N.eqb (RidePassengers.ride_id rp) (RideRequests.ride_id rr) &&
                    N.eqb (RidePassengers.passenger_id rp) (RideRequests.passenger_id rr))
                 (ride_passengers db) = false).
  { destruct (existsb _ _) eqn:E; [| reflexivity].
    apply existsb_exists in E. destruct E as [rp [Hin Hrp]].
    apply andb_prop in Hrp. destruct Hrp as [H1 H2].
    apply N.eqb_eq in H1, H2. exfalso. apply (Hnew rp Hin). split; congruence. }
  assert (Happ : approve_ride_request new_id request_id db =
                 Ok (true,
                     snd (create_notification new_id (RideRequests.passenger_id rr)
                            ride_approved
                            "Ride Request Approved!"%string
                            "Your request to join the ride has been approved."%string
                            [("ride_id"%string, RideRequests.ride_id rr)]
                            {| users := users db; rides := rides db;
                               ride_passengers :=
                                 ride_passengers db ++
                                 [ {| RidePassengers.ride_id := RideRequests.ride_id rr;
                                      RidePassengers.passenger_id :=
                                        RideRequests.passenger_id rr |} ];
                               ride_requests :=
                                 ride_requests (update_request_approved request_id db);
                               ratings := ratings db;
                               notifications := notifications db |}))).
  { unfold approve_ride_request.
    rewrite (select_pending_request_complete request_id db rr r); try assumption.
    rewrite Hride, (select_available_seats_count_spec db r Hkr Hr), Hn.
    cbn [lt_int holds].
    apply Z.ltb_ge in Hle. rewrite Hle.
    unfold insert_ride_passenger.
    cbn [update_request_approved ride_passengers].
    rewrite <- Hride, Hdup. reflexivity. }
  rewrite Happ. do 2 eexists. split; [reflexivity |].
  cbn [create_notification snd users rides ratings ride_passengers notifications
       ride_requests].
  rewrite Hride.
  repeat (split; [reflexivity |]).
  split.
  { unfold passenger_count, COUNT. cbn [ride_passengers].
    rewrite filter_app, length_app. cbn [filter RidePassengers.ride_id].
    rewrite N.eqb_refl. cbn [List.length]. lia. }
  repeat (split; [reflexivity |]).
  intros rr' Hin Hid'. cbn [update_request_approved ride_requests] in Hin.
  apply in_map_iff in Hin. destruct Hin as [x [Hx _]].
  destruct (N.eqb (RideRequests.id x) request_id) eqn:E; subst rr'.
  - reflexivity.
  - apply N.eqb_neq in E. contradiction.
Qed.

(** X17.  When the request is pending, the ride has at least the
    requested seats left and the passenger is not on the ride yet,
    [approve_ride_request] returns true.  It then marks the request as
    approved, adds the passenger to the ride once (one seat is taken
    whatever the number of seats requested) and stores one notification
    of type 'ride_approved' for the passenger; users, rides and ratings
    stay as they were. *)
Theorem approve_ride_request_success
    (new_id request_id : uuid) (db : database)
    (rr : RideRequests.row) (r : Rides.row) (n : Z) :
  rides_key_ok db -> requests_key_ok db ->
  In rr (ride_requests db) -> In r (rides db) ->
  RideRequests.id rr = request_id ->
  RideRequests.status rr = Some pending ->
  RideRequests.ride_id rr = Rides.id r ->
  RideRequests.requested_seats rr = Some n ->
  (n <= Rides.available_seats r - passenger_count db (Rides.id r))%Z ->
  (forall rp, In rp (ride_passengers db) ->
     ~ (RidePassengers.ride_id rp = Rides.id r /\
        RidePassengers.passenger_id rp = RideRequests.passenger_id rr)) ->
  exists db' note,
    approve_ride_request new_id request_id db = Ok (true, db') /\
    users db' = users db /\ rides db' = rides db /\ ratings db' = ratings db /\
    ride_passengers db' =
      ride_passengers db ++
      [ {| RidePassengers.ride_id := Rides.id r;
           RidePassengers.passenger_id := RideRequests.passenger_id rr |} ] /\
    passenger_count db' (Rides.id r) = (passenger_count db (Rides.id r) + 1)%Z /\
    notifications db' = notifications db ++ [note] /\
    Notifications.user_id note = RideRequests.passenger_id rr /\
    Notifications.type note = ride_approved /\
    (forall rr', In rr' (ride_requests db') -> RideRequests.id rr' = request_id ->
                 RideRequests.status rr' = Some approved).
Proof.
  apply approve_success_core.
Qed.

(** X18.  When the passenger of a pending request is already on the ride,
    [approve_ride_request] for a ride with a seat left does not return: the
    insertion into [ride_passengers] violates the unique constraint, the
    call is rolled back and the request stays pending. *)
Theorem approve_ride_request_already_aboard
    (new_id request_id : uuid) (db : database)
    (rr : RideRequests.row) (r : Rides.row) (n : Z) (rp : RidePassengers.row) :
  rides_key_ok db -> requests_key_ok db ->
  In rr (ride_requests db) -> In r (rides db) ->
  RideRequests.id rr = request_id ->
  RideRequests.status rr = Some pending ->
  RideRequests.ride_id rr = Rides.id r ->
  RideRequests.requested_seats rr = Some n ->
  (n <= Rides.available_seats r - passenger_count db (Rides.id r))%Z ->
  In rp (ride_passengers db) ->
  RidePassengers.ride_id rp = Rides.id r ->
  RidePassengers.passenger_id rp = RideRequests.passenger_id rr ->
  approve_ride_request new_id request_id db = Raise unique_violation /\
  after_approve db (new_id, request_id) = db.
Proof.
  intros Hkr Hkq Hrr Hr Hid Hst Hride Hn Hle Hrp Hrp1 Hrp2.
  assert (Happ : approve_ride_request new_id request_id db = Raise unique_violation).
  { unfold approve_ride_request.
    rewrite (select_pending_request_complete request_id db rr r); try assumption.
    rewrite Hride, (select_available_seats_count_spec db r Hkr Hr), Hn.
    cbn [lt_int holds].
    apply Z.ltb_ge in Hle. rewrite Hle.
    unfold insert_ride_passenger.
    cbn [update_request_approved ride_passengers].
    assert (Hdup : existsb (fun rp0 =>
                      N.eqb (RidePassengers.ride_id rp0) (Rides.id r) &&
                      N.eqb (RidePassengers.passenger_id rp0)
                            (RideRequests.passenger_id rr))
                   (ride_passengers db) = true).
    { apply existsb_exists. exists rp. split; [exact Hrp |].
      rewrite Hrp1, Hrp2, !N.eqb_refl. reflexivity. }
    rewrite Hdup. reflexivity. }
  split; [exact Happ |].
  unfold after_approve. cbn [fst snd]. rewrite Happ. reflexivity.
Qed.

Import ApprovalQueueSpec.

Lemma update_request_approved_ids (request_id : uuid) (db : database) :
  map RideRequests.id (ride_requests (update_request_approved request_id db)) =
  map RideRequests.id (ride_requests db).
Proof.
  cbn [update_request_approved ride_requests]. rewrite map_map.
  apply map_ext. intros rr. destruct (N.eqb (RideRequests.id rr) request_id); reflexivity.
Qed.

Lemma update_request_approved_other
    (request_id : uuid) (db : database) (rr : RideRequests.row) :
  In rr (ride_requests db) -> RideRequests.id rr <> request_id ->
  In rr (ride_requests (update_request_approved request_id db)).
Proof.
  intros Hin Hid. cbn [update_request_approved ride_requests].
  apply in_map_iff. exists rr. split; [| exact Hin].
  apply N.eqb_neq in Hid. rewrite Hid. reflexivity.
Qed.

(** One call for the head of the queue. *)
Lemma waiting_step
    (new_id : uuid) (db : database) (r : Rides.row)
    (rr : RideRequests.row) (rest : list RideRequests.row) :
  waiting db r (rr :: rest) ->
  waiting (after_approve db (new_id, RideRequests.id rr)) r rest /\
  passenger_count (after_approve db (new_id, RideRequests.id rr)) (Rides.id r) =
  Z.min (passenger_count db (Rides.id r) + 1) (Rides.available_seats r).
Proof.
  intros [Hkr [Hkq [Hr [Hrows [Hnd [Hnew Hcap]]]]]].
  destruct (Hrows rr (or_introl eq_refl)) as [Hrr [Hst [Hride Hn]]].
  inversion Hnd as [| ? ? Hnotin Hnd']. subst.
  assert (Hrest : forall rr', In rr' rest ->
            In rr' (ride_requests db) /\
            RideRequests.status rr' = Some pending /\
            RideRequests.ride_id rr' = Rides.id r /\
            RideRequests.requested_seats rr' = Some 1%Z).
  { intros rr' H'. apply Hrows. right. exact H'. }
  destruct (Z.lt_ge_cases (passenger_count db (Rides.id r)) (Rides.available_seats r))
    as [Hroom | Hfull].
  - destruct (approve_success_core new_id (RideRequests.id rr) db rr r 1%Z)
      as [db' [note [Happ [_ [Hrides [_ [Hpass [Hcount _]]]]]]]];
      try assumption; try reflexivity; [lia | |].
    { intros rp Hrp. apply (Hnew rr rp); [left; reflexivity | exact Hrp]. }
    pose proof (approve_ride_request_cases _ _ _ _ _ Happ) as Hcases.
    destruct Hcases as [[Hb _] | [_ [rr0 [r0 [_ [_ [_ [_ [_ [Hreq _]]]]]]]]]];
      [discriminate Hb |].
    unfold after_approve. cbn [fst snd]. rewrite Happ.
    split; [| rewrite Hcount; lia].
    unfold waiting, rides_key_ok, requests_key_ok.
    rewrite Hrides, Hreq, update_request_approved_ids.
    split; [exact Hkr |]. split; [exact Hkq |]. split; [exact Hr |].
    split.
    { intros rr' H'. destruct (Hrest rr' H') as [Hin' Hmore].
      split; [| exact Hmore].
      apply update_request_approved_other; [exact Hin' |].
      intros Heq. apply Hnotin.
      assert (rr' = rr).
      { apply (key_injective RideRequests.id (ride_requests db)); assumption. }
      subst rr'. apply in_map. exact H'. }
    split; [exact Hnd' |].
    split; [| rewrite Hcount; lia].
    intros rr' rp H' Hrp [Hp1 Hp2]. rewrite Hpass in Hrp.
    apply in_app_or in Hrp. destruct Hrp as [Hrp | [<- | []]].
    + apply (Hnew rr' rp); [right; exact H' | exact Hrp | split; assumption].
    + cbn in Hp2. apply Hnotin. rewrite Hp2. apply in_map. exact H'.
  - assert (Happ : approve_ride_request new_id (RideRequests.id rr) db = Ok (false, db)).
    { apply (approve_no_capacity new_id (RideRequests.id rr) db rr r 1%Z);
        try assumption; try reflexivity. lia. }
    unfold after_approve. cbn [fst snd]. rewrite Happ.
    split; [| lia].
    unfold waiting.
    split; [exact Hkr |]. split; [exact Hkq |]. split; [exact Hr |].
    split; [exact Hrest |]. split; [exact Hnd' |]. split; [| exact Hcap].
    intros rr' rp H' Hrp. apply (Hnew rr' rp); [right; exact H' | exact Hrp].
Qed.

(** X19.  First come, first served, and never more than the seats.  When
    the requests of a queue, pending and of one seat each, from different
    passengers not yet on the ride, are put to [approve_ride_request] one
    after the other, the ride ends with as many passengers more as there
    are requests, up to its seats: with [k] passengers, [c] seats and [n]
    requests it ends with [min (k + n) c] passengers. *)
Theorem approve_queue_fills_seats
    (rows : list RideRequests.row) (new_ids : list uuid)
    (db : database) (r : Rides.row) :
  waiting db r rows ->
  List.length new_ids = List.length rows ->
  passenger_count
    (approve_all (combine new_ids (map RideRequests.id rows)) db) (Rides.id r) =
  Z.min (passenger_count db (Rides.id r) + Z.of_nat (List.length rows))
        (Rides.available_seats r).
Proof.
  revert new_ids db. induction rows as [| rr rest IH]; intros new_ids db Hw Hlen.
  - destruct new_ids; [| discriminate Hlen]. cbn.
    destruct Hw as [_ [_ [_ [_ [_ [_ Hcap]]]]]]. lia.
  - destruct new_ids as [| new_id new_ids]; [discriminate Hlen |].
    injection Hlen as Hlen.
    destruct (waiting_step new_id db r rr rest Hw) as [Hw' Hcount].
    cbn [map combine]. unfold approve_all. cbn [fold_left].
    fold (approve_all (combine new_ids (map RideRequests.id rest))
            (after_approve db (new_id, RideRequests.id rr))).
    rewrite (IH new_ids _ Hw' Hlen), Hcount.
    cbn [List.length]. rewrite Nat2Z.inj_succ.
    destruct Hw as [_ [_ [_ [_ [_ [_ Hcap]]]]]]. lia.
Qed.

End ApprovalMore.

(* ------------------------------------------------------------------ *)
(** ** supabase-functions.sql: more on the ratings *)

Section RatingsMore.

Import Supabase RatingSpec.

Lemma update_user_rating_ratings (NEW : Ratings.row) (db db' : database) :
  update_user_rating NEW db = Ok db' ->
  rides db' = rides db /\ ride_passengers db' = ride_passengers db /\
  ride_requests db' = ride_requests db /\ ratings db' = ratings db /\
  notifications db' = notifications db /\
  map Users.id (users db') = map Users.id (users db) /\
  (forall u, Users.id u <> Ratings.rated_user_id NEW ->
             (In u (users db') <-> In u (users db))).
Proof.
  unfold update_user_rating.
  destruct (existsb _ (users db)).
  - destruct (to_decimal_3_2 _) as [stored | e]; [| discriminate].
    intros H. injection H as <-. cbn [rides ride_passengers ride_requests ratings
                                       notifications users].
    repeat (split; [reflexivity |]).
    split.
    + rewrite map_map. apply map_ext. intros u.
      destruct (N.eqb (Users.id u) (Ratings.rated_user_id NEW)); reflexivity.
    + intros u Hid. rewrite in_map_iff. split.
      * intros [x [Hx Hin]].
        destruct (N.eqb (Users.id x) (Ratings.rated_user_id NEW)) eqn:E.
        -- apply N.eqb_eq in E. subst u. cbn in Hid. contradiction.
        -- subst u. exact Hin.
      * intros Hin. exists u. split; [| exact Hin].
        apply N.eqb_neq in Hid. rewrite Hid. reflexivity.
  - intros H. injection H as <-. repeat (split; [reflexivity |]).
    intros u _. reflexivity.
Qed.

(** The insertion of a rating, once its checks are passed, is the trigger
    run on the table with the new row. *)
Lemma insert_rating_trigger (NEW : Ratings.row) (db db' : database) :
  insert_rating NEW db = Ok db' ->
  update_user_rating NEW
    {| users := users db; rides := rides db;
       ride_passengers := ride_passengers db;
       ride_requests := ride_requests db;
       ratings := ratings db ++ [NEW];
       notifications := notifications db |} = Ok db'.
Proof.
  unfold insert_rating.
  destruct (negb _); [discriminate |].
  destruct (existsb _ (ratings db)); [discriminate |].
  trivial.
Qed.



(** X21.  An insertion of a rating touches the row of the rated user and
    nothing else: the rides, passengers, requests and notifications, the
    identifiers of the users and the rows of all other users stay as they
    were. *)
Theorem insert_rating_frame (NEW : Ratings.row) (db db' : database) :
  insert_rating NEW db = Ok db' ->
  rides db' = rides db /\ ride_passengers db' = ride_passengers db /\
  ride_requests db' = ride_requests db /\ notifications db' = notifications db /\
  map Users.id (users db') = map Users.id (users db) /\
  (forall u, Users.id u <> Ratings.rated_user_id NEW ->
             (In u (users db') <-> In u (users db))).
Proof.
  intros H. apply insert_rating_trigger in H.
  apply update_user_rating_ratings in H.
  destruct H as [H1 [H2 [H3 [_ [H5 [H6 H7]]]]]].
  repeat split; try assumption; apply H7; assumption.
Qed.

Lemma insert_rating_frame_witness :
  exists db',
    insert_rating (Sample.stored_rating 3%N 3%N 5%Z) Sample.rated_db = Ok db' /\
    rides db' = rides Sample.rated_db /\
    map Users.id (users db') = map Users.id (users Sample.rated_db).
Proof.
  eexists. split; [reflexivity |].
  pose proof (insert_rating_frame (Sample.stored_rating 3%N 3%N 5%Z) Sample.rated_db
                _ eq_refl) as [H1 [_ [_ [_ [H5 _]]]]].
  split; [exact H1 | exact H5].
Defined.

Lemma insert_rating_checked (NEW : Ratings.row) (db db' : database) :
  insert_rating NEW db = Ok db' -> (1 <= Ratings.score NEW <= 5)%Z.
Proof.
  unfold insert_rating.
  destruct (1 <=? Ratings.score NEW)%Z eqn:H1;
    destruct (Ratings.score NEW <=? 5)%Z eqn:H5; cbn; try discriminate.
  intros _. apply Z.leb_le in H1. apply Z.leb_le in H5. lia.
Qed.

Lemma mean_bounds (scores : list Z) :
  scores <> [] ->
  (forall v, In v scores -> (1 <= v <= 5)%Z) ->
  1 <= mean (map inject_Z scores) <= 5.
Proof.
  intros Hne Hall.
  destruct (sum_scores_bounds scores Hall) as [Hlo Hhi].
  assert (Hn : 0 < inject_Z (Z.of_nat (List.length scores))).
  { apply inject_nat_pos. destruct scores; [congruence | simpl; lia]. }
  unfold mean. rewrite length_map.
  split; [apply Qle_shift_div_l | apply Qle_shift_div_r]; lra.
Qed.

Lemma to_decimal_3_2_range (q stored : Q) :
  1 <= q <= 5 -> to_decimal_3_2 q = Ok stored -> 1 <= stored <= 5.
Proof.
  intros [H1 H5]. unfold to_decimal_3_2.
  assert (Hpos : Qle_bool 0 q = true) by (apply Qle_bool_iff; lra).
  rewrite Hpos.
  destruct (Z.abs _ <? 1000)%Z; [| discriminate].
  intros H. injection H as <-.
  pose proof (cents_monotone 1 q H1) as Hlo.
  pose proof (cents_monotone q 5 H5) as Hhi.
  assert (E1 : inject_Z (Qfloor (1 * 100 + (1 # 2))) / 100 == 1) by reflexivity.
  assert (E5 : inject_Z (Qfloor (5 * 100 + (1 # 2))) / 100 == 5) by reflexivity.
  rewrite E1 in Hlo. rewrite E5 in Hhi. split; assumption.
Qed.

(** X22.  With stored scores from 1 to 5, an insertion leaves the rated
    user with a rating between 1 and 5 and a count of ratings one above
    the number of ratings that user had. *)
Theorem insert_rating_range (NEW : Ratings.row) (db db' : database) :
  scores_valid db ->
  insert_rating NEW db = Ok db' ->
  forall u, In u (users db') -> Users.id u = Ratings.rated_user_id NEW ->
    exists q,
      Users.rating u = Some q /\ 1 <= q <= 5 /\
      Users.total_ratings u =
        Some (Z.of_nat (List.length (scores_of db (Ratings.rated_user_id NEW))) + 1)%Z.
Proof.
  intros Hvalid H u Hin Hid.
  pose proof (insert_rating_checked NEW db db' H) as Hscore.
  apply insert_rating_trigger in H.
  remember {| users := users db; rides := rides db;
              ride_passengers := ride_passengers db;
              ride_requests := ride_requests db;
              ratings := ratings db ++ [NEW];
              notifications := notifications db |} as db1 eqn:Hdb1.
  assert (Hs : scores_of db1 (Ratings.rated_user_id NEW) =
               scores_of db (Ratings.rated_user_id NEW) ++ [Ratings.score NEW]).
  { apply scores_of_inserted. rewrite Hdb1. reflexivity. }
  apply update_user_rating_spec in H. destruct H as [_ H].
  destruct (H u Hin Hid) as [q [stored [Hdec [-> [Hq Ht]]]]].
  exists stored. split; [exact Hq |].
  rewrite Hs in Hdec, Ht.
  assert (Hne : scores_of db (Ratings.rated_user_id NEW) ++ [Ratings.score NEW] <> []).
  { intros E. apply app_eq_nil in E. destruct E as [_ E]. discriminate E. }
  assert (Hall : forall v,
            In v (scores_of db (Ratings.rated_user_id NEW) ++ [Ratings.score NEW]) ->
            (1 <= v <= 5)%Z).
  { intros v Hv. apply in_app_or in Hv. destruct Hv as [Hv | [<- | []]].
    - unfold scores_of in Hv. apply in_map_iff in Hv.
      destruct Hv as [r [<- Hr]]. apply filter_In in Hr. apply Hvalid. apply Hr.
    - exact Hscore. }
  split.
  - rewrite AVG_mean in Hdec.
    + cbn [COALESCE] in Hdec.
      apply (to_decimal_3_2_range _ _ (mean_bounds _ Hne Hall) Hdec).
    + intros E. apply map_eq_nil in E. contradiction.
  - rewrite Ht, length_app. cbn [List.length]. f_equal. lia.
Qed.

Lemma insert_rating_range_witness :
  exists db',
    insert_rating (Sample.stored_rating 3%N 3%N 5%Z) Sample.rated_db = Ok db' /\
    forall u, In u (users db') -> Users.id u = 100%N ->
      exists q,
        Users.rating u = Some q /\ 1 <= q <= 5 /\
        Users.total_ratings u =
          Some (Z.of_nat (List.length (scores_of Sample.rated_db 100%N)) + 1)%Z.
Proof.
  eexists. split; [reflexivity |].
  apply (insert_rating_range (Sample.stored_rating 3%N 3%N 5%Z) Sample.rated_db).
  - intros r [H | [H | []]]; subst r; cbn; lia.
  - reflexivity.
Defined.



End RatingsMore.

Lemma approve_ride_request_success_witness :
  exists db' note,
    Supabase.approve_ride_request 900%N 10%N Sample.carpool_db = Supabase.Ok (true, db') /\
    ApprovalSpec.passenger_count db' 1%N =
      (ApprovalSpec.passenger_count Sample.carpool_db 1%N + 1)%Z /\
    Supabase.notifications db' = Supabase.notifications Sample.carpool_db ++ [note] /\
    Supabase.Notifications.user_id note = 100%N.
Proof.
  destruct (approve_ride_request_success 900%N 10%N Sample.carpool_db
              (Sample.join_request 10%N 100%N pending) Sample.one_seat_ride 1%Z)
    as [db' [note [Happ [_ [_ [_ [_ [Hcount [Hnote [Hto _]]]]]]]]]].
  - repeat constructor. simpl. tauto.
  - repeat constructor; simpl; intuition discriminate.
  - left. reflexivity.
  - left. reflexivity.
  - reflexivity.
  - reflexivity.
  - reflexivity.
  - reflexivity.
  - vm_compute. discriminate.
  - intros rp [].
  - exists db', note. repeat split; assumption.
Defined.

Lemma approve_ride_request_already_aboard_witness :
  Supabase.approve_ride_request 900%N 11%N Sample.aboard_db =
    Supabase.Raise Supabase.unique_violation /\
  Supabase.after_approve Sample.aboard_db (900%N, 11%N) = Sample.aboard_db.
Proof.
  apply (approve_ride_request_already_aboard 900%N 11%N Sample.aboard_db
           (Sample.join_request 11%N 101%N pending) Sample.two_seat_ride 1%Z
           {| Supabase.RidePassengers.ride_id := 1%N;
              Supabase.RidePassengers.passenger_id := 101%N |}).
  - repeat constructor. simpl. tauto.
  - repeat constructor. simpl. tauto.
  - left. reflexivity.
  - left. reflexivity.
  - reflexivity.
  - reflexivity.
  - reflexivity.
  - reflexivity.
  - vm_compute. discriminate.
  - left. reflexivity.
  - reflexivity.
  - reflexivity.
Defined.

Lemma approve_queue_fills_seats_witness :
  ApprovalSpec.passenger_count
    (Supabase.approve_all [(900%N, 10%N); (901%N, 11%N)] Sample.carpool_db) 1%N = 1%Z.
Proof.
  assert (Hw : ApprovalQueueSpec.waiting Sample.carpool_db Sample.one_seat_ride
                 [Sample.join_request 10%N 100%N pending;
                  Sample.join_request 11%N 101%N pending]).
  { unfold ApprovalQueueSpec.waiting.
    split; [repeat constructor; simpl; tauto |].
    split; [repeat constructor; simpl; intuition discriminate |].
    split; [left; reflexivity |].
    split.
    { intros rr [H | [H | []]]; subst rr; (split; [simpl; tauto |]); repeat split. }
    split; [repeat constructor; simpl; intuition discriminate |].
    split; [intros rr rp _ [] |].
    vm_compute. discriminate. }
  exact (approve_queue_fills_seats
           [Sample.join_request 10%N 100%N pending; Sample.join_request 11%N 101%N pending]
           [900%N; 901%N] Sample.carpool_db Sample.one_seat_ride Hw eq_refl).
Defined.

(* ------------------------------------------------------------------ *)
(** ** storage.ts: more on the ratings and the rides of a user *)

Section LocalMore.

Import Storage SearchRides RatingSpec.

Lemma sum_bounds_Q (scores : list Q) :
  (forall v, In v scores -> 1 <= v <= 5) ->
  inject_Z (Z.of_nat (List.length scores)) <= fold_right Qplus 0 scores /\
  fold_right Qplus 0 scores <= 5 * inject_Z (Z.of_nat (List.length scores)).
Proof.
  induction scores as [| v l IH]; intros H.
  - cbn. split; unfold Qle; simpl; lia.
  - destruct IH as [IH1 IH2]; [intros w Hw; apply H; right; exact Hw |].
    destruct (H v (or_introl eq_refl)) as [Hv1 Hv5].
    cbn [List.length fold_right]. rewrite Nat2Z.inj_succ. unfold Z.succ.
    rewrite inject_Z_plus. change (inject_Z 1) with 1. split; lra.
Qed.

(** X24.  For ratings with scores between 1 and 5 the rating that
    [calculateUserRating] returns is between 1 and 5. *)
Theorem calculateUserRating_range (userId : string) (ls : LocalStorage) (scores : list Q) :
  scores <> [] ->
  map Rating.score (ratingsStorage.getUserRatings userId ls) = map Num scores ->
  (forall v, In v scores -> 1 <= v <= 5) ->
  exists q, ratingsStorage.calculateUserRating userId ls = Num q /\ 1 <= q <= 5.
Proof.
  intros Hne Hscores Hall.
  destruct (calculateUserRating_spec userId ls scores Hne Hscores) as [q [Hq [[k Hk] Herr]]].
  exists q. split; [exact Hq |].
  destruct (sum_bounds_Q scores Hall) as [Hlo Hhi].
  assert (Hn : 0 < inject_Z (Z.of_nat (List.length scores))).
  { apply inject_nat_pos. destruct scores; [congruence | simpl; lia]. }
  assert (Hm1 : 1 <= mean scores) by (unfold mean; apply Qle_shift_div_l; lra).
  assert (Hm5 : mean scores <= 5) by (unfold mean; apply Qle_shift_div_r; lra).
  apply Qabs_Qle_condition in Herr. destruct Herr as [Hl Hr].
  change ((1 # 10) / 2) with (1 # 20) in Hl, Hr.
  assert (Hk1 : ((95 # 100) <= inject_Z k * (1 # 10))) by (rewrite <- Hk; lra).
  assert (Hk5 : (inject_Z k * (1 # 10) <= (505 # 100))) by (rewrite <- Hk; lra).
  assert (Hkz : (10 <= k <= 50)%Z).
  { unfold Qle in Hk1, Hk5. cbn in Hk1, Hk5. lia. }
  rewrite Hk. destruct Hkz as [Ha Hb].
  rewrite Zle_Qle in Ha, Hb.
  change (inject_Z 10) with 10 in Ha. change (inject_Z 50) with 50 in Hb.
  split; lra.
Qed.

Lemma calculateUserRating_range_witness :
  exists q,
    ratingsStorage.calculateUserRating "driver-1" Sample.rated_storage = Num q /\
    1 <= q <= 5.
Proof.
  apply (calculateUserRating_range "driver-1" Sample.rated_storage [4; 4; 5]).
  - discriminate.
  - reflexivity.
  - intros v [H | [H | [H | []]]]; subst v; split; unfold Qle; simpl; lia.
Defined.

(** X25.  A ride is never both among the rides of a user and on that
    user's search page: the page leaves out the rides that the user
    drives or has joined, which are the rides that [getUserRides]
    returns. *)
Theorem search_page_excludes_own_rides
    (ls : LocalStorage) (page : Component) (u : User.t) (ride : Ride.t) :
  USER ls = Some u ->
  In ride (rides (useEffect ls page)) ->
  ~ In ride (ridesStorage.getUserRides (User.id u) ls).
Proof.
  intros Hu Hpage Hmine.
  unfold useEffect, getCurrentUser, userStorage.getUser in Hpage.
  cbn [rides] in Hpage. rewrite Hu in Hpage.
  apply filter_In in Hpage. destruct Hpage as [_ Hp].
  unfold ridesStorage.getUserRides in Hmine.
  apply filter_In in Hmine. destruct Hmine as [_ Hm].
  apply andb_prop in Hp. destruct Hp as [_ Hp].
  apply andb_prop in Hp. destruct Hp as [Hd Hj].
  apply negb_true_iff in Hd, Hj.
  rewrite Hd, Hj in Hm. discriminate Hm.
Qed.

Lemma search_page_excludes_own_rides_witness :
  ~ In Sample.ride_two_taken
       (ridesStorage.getUserRides (User.id Sample.student) Sample.demo_storage).
Proof.
  apply (search_page_excludes_own_rides Sample.demo_storage Sample.blank_page
           Sample.student Sample.ride_two_taken).
  - reflexivity.
  - left. reflexivity.
Defined.

End LocalMore.

(* ------------------------------------------------------------------ *)
(** ** SearchFilters.tsx: the form and the search *)

Section FormMore.

Import SearchRides SearchSpec FormSpec.

Variable toDateString : Date -> string.

Lemma searchFromForm_sent (page : Component) (form : SearchCriteria.t) :
  searchFromForm toDateString page form = handleSearch toDateString (sent form) page.
Proof. reflexivity. Qed.

Lemma positive_truthy (n : number) : lt (Num 0) n = true -> JSNumber.truthy n = true.
Proof.
  destruct n as [q | | |]; cbn; try congruence.
  intros H. apply negb_true_iff in H. apply negb_true_iff.
  destruct (Qeq_bool q 0) eqn:E; [| reflexivity].
  apply Qeq_bool_iff in E.
  assert (Hle : Qle_bool q 0 = true) by (apply Qle_bool_iff; lra).
  rewrite Hle in H. discriminate H.
Qed.

Lemma sent_numbers (form : SearchCriteria.t) :
  (forall n, SearchCriteria.availableSeats form = Some n -> lt (Num 0) n = true ->
             SearchCriteria.availableSeats (sent form) = Some n) /\
  (forall n, SearchCriteria.maxCostPerSeat form = Some n -> lt (Num 0) n = true ->
             SearchCriteria.maxCostPerSeat (sent form) = Some n).
Proof.
  destruct form as [fc tc dd mc av gp]. unfold sent, SearchFilters.handleSearch.
  cbn [SearchCriteria.fromCity SearchCriteria.toCity SearchCriteria.departureDate
       SearchCriteria.maxCostPerSeat SearchCriteria.availableSeats
       SearchCriteria.genderPreference].
  split; intros n Hn Hpos; cbn in Hn; subst; rewrite Hpos;
    destruct fc as [fc |]; try destruct (JSString.truthy (JSString.trim fc));
    destruct tc as [tc |]; try destruct (JSString.truthy (JSString.trim tc));
    destruct dd as [dd |];
    try (destruct mc as [mc |]; [destruct (lt (Num 0) mc) |]);
    try (destruct av as [av |]; [destruct (lt (Num 0) av) |]);
    destruct gp as [[| |] |]; reflexivity.
Qed.

(** X26.  A positive number of seats, and a positive maximal cost, entered
    in the form is always enforced: every ride that the search started
    from the form shows has at least that many [availableSeats], and
    costs at most that much a seat. *)
Theorem form_numbers_enforced (page : Component) (form : SearchCriteria.t) :
  (forall n, SearchCriteria.availableSeats form = Some n -> lt (Num 0) n = true ->
     Forall (fun ride => ge (Ride.availableSeats ride) n = true)
            (filteredRides (searchFromForm toDateString page form))) /\
  (forall n, SearchCriteria.maxCostPerSeat form = Some n -> lt (Num 0) n = true ->
     Forall (fun ride => le (Ride.costPerSeat ride) n = true)
            (filteredRides (searchFromForm toDateString page form))).
Proof.
  destruct (sent_numbers form) as [Hseats Hcost].
  split; intros n Hn Hpos; rewrite searchFromForm_sent, handleSearch_filter;
    apply Forall_forall; intros ride Hin.
  - apply filter_In in Hin. destruct Hin as [Hin _].
    apply filter_In in Hin. destruct Hin as [_ Hok].
    unfold seatsOk in Hok.
    rewrite (Hseats n Hn Hpos), (positive_truthy n Hpos) in Hok. exact Hok.
  - apply filter_In in Hin. destruct Hin as [Hin _].
    apply filter_In in Hin. destruct Hin as [Hin _].
    apply filter_In in Hin. destruct Hin as [_ Hok].
    unfold maxCostOk in Hok.
    rewrite (Hcost n Hn Hpos), (positive_truthy n Hpos) in Hok. exact Hok.
Qed.

(** X27.  A form left empty shows every ride of the page: fields that are
    blank or of white space only, numbers that are not positive and the
    gender 'any' are not sent as criteria. *)
Theorem form_without_criteria (page : Component) (form : SearchCriteria.t) :
  blank (SearchCriteria.fromCity form) ->
  blank (SearchCriteria.toCity form) ->
  SearchCriteria.departureDate form = None ->
  notPositive (SearchCriteria.maxCostPerSeat form) ->
  notPositive (SearchCriteria.availableSeats form) ->
  (SearchCriteria.genderPreference form = None \/
   SearchCriteria.genderPreference form = Some any) ->
  sent form = SearchFilters.noCriteria /\
  filteredRides (searchFromForm toDateString page form) = rides page.
Proof.
  intros Hfrom Hto Hdate Hcost Hseats Hgender.
  assert (Hsent : sent form = SearchFilters.noCriteria).
  { destruct form as [fc tc dd mc av gp]. cbn in *. subst dd.
    unfold sent, SearchFilters.handleSearch.
    cbn [SearchCriteria.fromCity SearchCriteria.toCity SearchCriteria.departureDate
         SearchCriteria.maxCostPerSeat SearchCriteria.availableSeats
         SearchCriteria.genderPreference].
    assert (Efc : match fc with
                  | Some s => JSString.truthy (JSString.trim s) = false
                  | None => True end).
    { destruct fc as [s |]; [| exact I]. rewrite (Hfrom s eq_refl). reflexivity. }
    assert (Etc : match tc with
                  | Some s => JSString.truthy (JSString.trim s) = false
                  | None => True end).
    { destruct tc as [s |]; [| exact I]. rewrite (Hto s eq_refl). reflexivity. }
    destruct fc as [fc |]; [rewrite Efc |];
      (destruct tc as [tc |]; [rewrite Etc |]);
      (destruct mc as [mc |]; [rewrite (Hcost mc eq_refl) |]);
      (destruct av as [av |]; [rewrite (Hseats av eq_refl) |]);
      (destruct Hgender as [-> | ->]); reflexivity. }
  split; [exact Hsent |].
  rewrite searchFromForm_sent, Hsent. reflexivity.
Qed.

(** X28.  The gender 'any'.  Chosen in the form it is not sent, so the
    search shows the same rides as with no gender chosen; given to
    [handleSearch] itself as a criterion it keeps only the rides whose
    own preference is 'any'. *)
Theorem gender_any (page : Component) :
  (forall form,
     SearchCriteria.genderPreference form = Some any ->
     searchFromForm toDateString page form =
     searchFromForm toDateString page (withGender None form)) /\
  filteredRides
    (handleSearch toDateString (withGender (Some any) SearchFilters.noCriteria) page) =
  filter (fun ride =>
            Gender_eqb (RidePreferences.genderPreference (Ride.preferences ride)) any)
         (rides page).
Proof.
  split.
  - intros form Hany. destruct form as [fc tc dd mc av gp]. cbn in Hany. subst gp.
    reflexivity.
  - rewrite handleSearch_filter. cbn.
    rewrite !filter_true. apply filter_ext. intros ride.
    apply orb_diag.
Qed.

End FormMore.

Lemma form_numbers_enforced_witness :
  Forall (fun ride => ge (Ride.availableSeats ride) (Num 2) = true)
         (SearchRides.filteredRides
            (FormSpec.searchFromForm (fun _ => EmptyString) Sample.loaded_page
               Sample.two_seats)).
Proof.
  apply (proj1 (form_numbers_enforced (fun _ => EmptyString) Sample.loaded_page
                  Sample.two_seats) (Num 2)); reflexivity.
Defined.

Lemma form_without_criteria_witness :
  SearchRides.filteredRides
    (FormSpec.searchFromForm (fun _ => EmptyString) Sample.loaded_page
       {| SearchCriteria.fromCity := Some "   "%string;
          SearchCriteria.toCity := Some ""%string;
          SearchCriteria.departureDate := None;
          SearchCriteria.maxCostPerSeat := Some (Num 0);
          SearchCriteria.availableSeats := Some NaN;
          SearchCriteria.genderPreference := Some any |}) =
  SearchRides.rides Sample.loaded_page.
Proof.
  apply (form_without_criteria (fun _ => EmptyString)).
  - intros s H. injection H as <-. reflexivity.
  - intros s H. injection H as <-. reflexivity.
  - reflexivity.
  - intros n H. injection H as <-. reflexivity.
  - intros n H. injection H as <-. reflexivity.
  - right. reflexivity.
Defined.

Lemma gender_any_witness :
  FormSpec.searchFromForm (fun _ => EmptyString) Sample.loaded_page
    (FormSpec.withGender (Some any) Sample.two_seats) =
  FormSpec.searchFromForm (fun _ => EmptyString) Sample.loaded_page
    (FormSpec.withGender None (FormSpec.withGender (Some any) Sample.two_seats)).
Proof.
  apply (proj1 (gender_any (fun _ => EmptyString) Sample.loaded_page)).
  reflexivity.
Defined.
